(** * Torchbox site: page models and template tags

    A shallow embedding of [torchbox/models.py] and
    [torchbox/templatetags/torchbox_tags.py].

    Python integers are [Z]; text is [string]; [None] is [None] of an
    [option]; a queryset is the [list] of rows it evaluates to; the two
    paginator exceptions are an error type threaded through [result]. *)

From Stdlib Require Import ZArith List String Ascii Bool Lia.
From Stdlib Require Import DecimalString Sorted Permutation.
Import ListNotations.

Local Open Scope string_scope.
Local Open Scope Z_scope.

(** ** Python built-ins used by the code *)

(** [str(n)] for an integer. *)
Definition str (n : Z) : string := NilZero.string_of_int (Z.to_int n).

(** [sep.join(parts)]. *)
Definition join (sep : string) (parts : list string) : string :=
  String.concat sep parts.

(** ** torchbox_tags.time_display *)

(** The two attributes of [datetime.time] that the filter reads. *)
Record time := mk_time { hour : Z; minute : Z }.

Definition time_display (t : time) : string :=
  let hour0 := hour t in
  let minute := minute t in
  (* Convert to 12 hour format *)
  let '(pm, hour1) :=
    if hour0 >=? 12 then (true, hour0 - 12) else (false, hour0) in
  let hour2 := if hour1 =? 0 then 12 else hour1 in
  (* Hour string *)
  let hour_string := str hour2 in
  (* Minute string *)
  let minute_string :=
    if negb (minute =? 0) then "." ++ str minute else "" in
  (* PM string *)
  let pm_string := if pm then "pm" else "am" in
  join "" [hour_string; minute_string; pm_string].

(** The formatter as section 4.5 of the specification words it: the hour on
    the 12-hour clock (0 and 12 shown as 12), then "." and the minutes
    unless they are zero, then the "am"/"pm" suffix. *)
Definition hour12 (h : Z) : Z := if h mod 12 =? 0 then 12 else h mod 12.

Definition time_display_spec (t : time) : string :=
  str (hour12 (hour t))
  ++ (if minute t =? 0 then "" else "." ++ str (minute t))
  ++ (if hour t <? 12 then "am" else "pm").

(** The first character of a text, if any. *)
Definition first_char (s : string) : option ascii :=
  match s with
  | EmptyString => None
  | String c _ => Some c
  end.

(** ** models.LinkFields *)

(** A row of [wagtailcore.Page] as a link target: only [url] is read. *)
Record LinkedPage := { lp_url : option string }.

(** A row of [wagtaildocs.Document]: only [url] is read. *)
Record Document := { doc_url : option string }.

Record LinkFields := {
  link_external : string;
  link_page : option LinkedPage;
  link_document : option Document
}.

(** The [link] property.  A model instance is truthy, so each test is a test
    for [None]; the value is whatever the chosen attribute holds. *)
Definition link (self : LinkFields) : option string :=
  match link_page self with
  | Some p => lp_url p
  | None =>
      match link_document self with
      | Some d => doc_url d
      | None => Some (link_external self)
      end
  end.

(** ** More Python built-ins: [int(text)] and truthiness *)

(** A value as [request.GET.get] hands it out, or as the code writes it. *)
Inductive pyval :=
| PyNone
| PyStr (s : string)
| PyInt (n : Z).

(** White space for [int] on the unicode text of a query string: the blank,
    codes 9 to 13 and codes 28 to 31. *)
Definition is_space (c : ascii) : bool :=
  let n := nat_of_ascii c in
  (n =? 32)%nat || ((9 <=? n)%nat && (n <=? 13)%nat)
  || ((28 <=? n)%nat && (n <=? 31)%nat).

Fixpoint lstrip (s : string) : string :=
  match s with
  | String c r => if is_space c then lstrip r else s
  | EmptyString => EmptyString
  end.

Fixpoint string_rev (s : string) : string :=
  match s with
  | EmptyString => EmptyString
  | String c r => string_rev r ++ String c EmptyString
  end.

Definition strip (s : string) : string :=
  string_rev (lstrip (string_rev (lstrip s))).

Definition digit_value (c : ascii) : option Z :=
  let n := nat_of_ascii c in
  if ((48 <=? n)%nat && (n <=? 57)%nat)%bool
  then Some (Z.of_nat (n - 48)) else None.

(** Value of a run of decimal digits read after [acc]; [None] as soon as a
    character is not a digit. *)
Fixpoint digits_from (acc : Z) (s : string) : option Z :=
  match s with
  | EmptyString => Some acc
  | String c r =>
      match digit_value c with
      | Some d => digits_from (10 * acc + d) r
      | None => None
      end
  end.

Definition digits (s : string) : option Z :=
  match s with
  | EmptyString => None
  | _ => digits_from 0 s
  end.

(** [int(text)] in base ten, for text of ASCII characters: surrounding
    white space is dropped, one sign is allowed, then at least one digit and
    only digits.  [None] stands for [ValueError]. *)
Definition int_of_string (s : string) : option Z :=
  match strip s with
  | String "-"%char r => option_map Z.opp (digits r)
  | String "+"%char r => digits r
  | t => digits t
  end.

(** [int(v)]; [None] stands for [TypeError] or [ValueError]. *)
Definition int (v : pyval) : option Z :=
  match v with
  | PyNone => None
  | PyStr s => int_of_string s
  | PyInt n => Some n
  end.

(** Truth value of [v] in [if v:]. *)
Definition truthy (v : pyval) : bool :=
  match v with
  | PyNone => false
  | PyStr s => negb (s =? "")%string
  | PyInt n => negb (n =? 0)
  end.

(** ** django.core.paginator

    The library the four [serve] methods paginate with.  The model follows
    its [Paginator] class: [validate_number] turns a failing [int(number)]
    into [PageNotAnInteger] and raises [EmptyPage] for a number below 1 or,
    unless it is 1 on an allowed empty first page, above [num_pages];
    [page] cuts [object_list[bottom:top]]. *)

Inductive exn := PageNotAnInteger | EmptyPage.

Inductive result (A : Type) :=
| Return (a : A)
| Raise (e : exn).
Arguments Return {A} a.
Arguments Raise {A} e.

(** [l[bottom:top]] for [0 <= bottom]. *)
Definition slice {A : Type} (l : list A) (bottom top : Z) : list A :=
  firstn (Z.to_nat (top - bottom)) (skipn (Z.to_nat bottom) l).

Module paginator.
Section Paginator.
Context {A : Type}.

Record Paginator := {
  object_list : list A;
  per_page : Z;
  orphans : Z;
  allow_empty_first_page : bool
}.

(** [Paginator(object_list, per_page)] with the defaults of the other two
    arguments. *)
Definition init (l : list A) (n : Z) : Paginator :=
  {| object_list := l; per_page := n; orphans := 0;
     allow_empty_first_page := true |}.

Record Page := {
  page_object_list : list A;
  number : Z;
  of_paginator : Paginator
}.

Definition count (p : Paginator) : Z := Z.of_nat (List.length (object_list p)).

(** [int(ceil(hits / float(per_page)))], as an integer ceiling. *)
Definition num_pages (p : Paginator) : Z :=
  if (count p =? 0) && negb (allow_empty_first_page p) then 0
  else
    let hits := Z.max 1 (count p - orphans p) in
    (hits + per_page p - 1) / per_page p.

Definition validate_number (p : Paginator) (number : pyval) : result Z :=
  match int number with
  | None => Raise PageNotAnInteger
  | Some n =>
      if n <? 1 then Raise EmptyPage
      else if n >? num_pages p then
        if (n =? 1) && allow_empty_first_page p then Return n
        else Raise EmptyPage
      else Return n
  end.

Definition page (p : Paginator) (number : pyval) : result Page :=
  match validate_number p number with
  | Raise e => Raise e
  | Return n =>
      let bottom := (n - 1) * per_page p in
      let top := bottom + per_page p in
      let top := if top + orphans p >=? count p then count p else top in
      Return {| page_object_list := slice (object_list p) bottom top;
                number := n;
                of_paginator := p |}
  end.
End Paginator.
Arguments Paginator A : clear implicits.
Arguments Page A : clear implicits.
End paginator.

(** ** The request *)

(** [request.GET]: the query string as its (key, value) pairs in order. *)
Definition QueryDict := list (string * string).

Record HttpRequest := { GET : QueryDict }.

(** [QueryDict.get(key)]: the last value given for [key], [None] without
    one. *)
Fixpoint get (q : QueryDict) (key : string) : pyval :=
  match q with
  | [] => PyNone
  | (k, v) :: rest =>
      match get rest key with
      | PyNone => if (k =? key)%string then PyStr v else PyNone
      | found => found
      end
  end.

(** The query string with every [key] entry taken out. *)
Definition without (key : string) (q : QueryDict) : QueryDict :=
  filter (fun kv => negb (fst kv =? key)%string) q.

(** ** Querysets *)

(** [order_by]: a stable insertion sort for the order [leb]; rows that
    compare equal keep the order they came in. *)
Section OrderBy.
Context {A : Type} (leb : A -> A -> bool).

Fixpoint insert_row (x : A) (l : list A) : list A :=
  match l with
  | [] => [x]
  | y :: r => if leb x y then x :: l else y :: insert_row x r
  end.

Definition order_by (l : list A) : list A := fold_right insert_row [] l.
End OrderBy.

(** [queryset.first()]. *)
Definition first {A : Type} (l : list A) : option A :=
  match l with
  | [] => None
  | x :: _ => Some x
  end.

(** [if queryset:], true when it has a row. *)
Definition nonempty {A : Type} (l : list A) : bool :=
  match l with
  | [] => false
  | _ :: _ => true
  end.

(** ** The page tree *)

(** What [page.specific] is an instance of, with the fields of the subclass
    that the code reads ([BlogPage.date] as a day number, [BlogPage.tags] as
    the tag names). *)
Inductive Specific :=
| plainpage
| homepage
| standardpage
| blogindexpage
| blogpage (date : Z) (tags : list string)
| jobpage
| jobindexpage
| workpage
| workindexpage
| personpage
| personindexpage.

(** A row of [wagtailcore.Page].  [path] is treebeard's materialised path. *)
Record Page := {
  pk : Z;
  path : string;
  live : bool;
  show_in_menus : bool;
  specific : Specific
}.

(** The page table, in the order the default manager yields its rows. *)
Definition Store := list Page.

(** [isinstance(s, C)] for the page classes that are asked for. *)
Definition is_BlogIndexPage (s : Specific) : bool :=
  match s with blogindexpage => true | _ => false end.
Definition is_BlogPage (s : Specific) : bool :=
  match s with blogpage _ _ => true | _ => false end.
Definition is_JobPage (s : Specific) : bool :=
  match s with jobpage => true | _ => false end.
Definition is_WorkPage (s : Specific) : bool :=
  match s with workpage => true | _ => false end.
Definition is_PersonPage (s : Specific) : bool :=
  match s with personpage => true | _ => false end.

(** [C.objects]: the rows of the page table whose class is [C]. *)
Definition objects (is_C : Specific -> bool) (store : Store) : list Page :=
  filter (fun p => is_C (specific p)) store.

(** treebeard's [MP_Node]: a step of the path is [steplen] characters. *)
Definition steplen : nat := 4.

(** The [depth] column, which treebeard keeps equal to the number of steps
    of [path]. *)
Definition depth (p : Page) : Z :=
  Z.of_nat (String.length (path p) / steplen).

(** [path__startswith=prefix]. *)
Definition path_startswith (pre : string) (p : Page) : bool :=
  String.prefix pre (path p).

(** [MP_Node.is_descendant_of]. *)
Definition is_descendant_of (p node : Page) : bool :=
  path_startswith (path node) p && (depth node <? depth p).

(** [MP_Node.get_children]: the rows one level below [self] whose path
    extends its path, [order_by('path')]. *)
Definition get_children (store : Store) (self : Page) : list Page :=
  order_by (fun a b => String.leb (path a) (path b))
    (filter (fun c => (depth c =? depth self + 1)
                      && path_startswith (path self) c) store).

(** The paths [MP_Node.get_ancestors] looks up:
    [self.path[0:pos]] for [pos] in [range(0, len(self.path), steplen)[1:]]. *)
Definition ancestor_paths (p : string) : list string :=
  map (fun k => substring 0 (k * steplen) p)
      (seq 1 ((String.length p + steplen - 1) / steplen - 1)).

(** [MP_Node.get_ancestors]: [filter(path__in=paths).order_by('depth')]. *)
Definition get_ancestors (store : Store) (self : Page) : list Page :=
  order_by (fun a b => depth a <=? depth b)
    (filter (fun a => existsb (String.eqb (path a)) (ancestor_paths (path self)))
            store).

(** ** models.py: the index pages *)

(** What [render] is given: the page itself and, under [listing_name], the
    page of results. *)
Record TemplateResponse := {
  ctx_self : Page;
  listing_name : string;
  listing : paginator.Page Page
}.

Definition render (self : Page) (name : string) (rows : paginator.Page Page)
  : TemplateResponse :=
  {| ctx_self := self; listing_name := name; listing := rows |}.

Module BlogPage.
(** The [date] and [tags] fields, read off rows of [BlogPage.objects]. *)
Definition date (p : Page) : Z :=
  match specific p with blogpage d _ => d | _ => 0 end.
Definition tags (p : Page) : list string :=
  match specific p with blogpage _ t => t | _ => [] end.

(** The lookup [tags__name=tag]: one of the page's tags has that name. *)
Definition tags__name (tag : pyval) (p : Page) : bool :=
  match tag with
  | PyStr name => existsb (String.eqb name) (tags p)
  | _ => false
  end.

(** The [blog_index] property: the loop over [reversed(get_ancestors())]
    returns at the first instance of [BlogIndexPage]. *)
Definition blog_index (store : Store) (self : Page) : option Page :=
  (* Find blog index in ancestors *)
  match find (fun ancestor => is_BlogIndexPage (specific ancestor))
             (rev (get_ancestors store self)) with
  | Some ancestor => Some ancestor
  | None =>
      (* No ancestors are blog indexes,
         just return first blog index in database *)
      first (objects is_BlogIndexPage store)
  end.
End BlogPage.

Module BlogIndexPage.
Import BlogPage.

Definition blogs (store : Store) (self : Page) : list Page :=
  (* Get list of blog pages that are descendants of this page *)
  let blogs :=
    filter (fun p => live p && path_startswith (path self) p)
           (objects is_BlogPage store) in
  (* Order by most recent date first *)
  let blogs := order_by (fun a b => date b <=? date a) blogs in
  blogs.

Definition serve (store : Store) (self : Page) (request : HttpRequest)
  : result TemplateResponse :=
  (* Get blogs *)
  let blogs := blogs store self in
  (* Filter by tag *)
  let tag := get (GET request) "tag" in
  let blogs :=
    if truthy tag then filter (tags__name tag) blogs else blogs in
  (* Pagination *)
  let page := get (GET request) "page" in
  let paginator := paginator.init blogs 10 in
  let blogs :=
    match paginator.page paginator page with
    | Return b => Return b
    | Raise PageNotAnInteger => paginator.page paginator (PyInt 1)
    | Raise EmptyPage =>
        paginator.page paginator (PyInt (paginator.num_pages paginator))
    end in
  match blogs with
  | Return b => Return (render self "blogs" b)
  | Raise e => Raise e
  end.
End BlogIndexPage.

Module JobIndexPage.
Definition jobs (store : Store) (self : Page) : list Page :=
  filter (fun p => live p && path_startswith (path self) p)
         (objects is_JobPage store).

Definition serve (store : Store) (self : Page) (request : HttpRequest)
  : result TemplateResponse :=
  let jobs := jobs store self in
  let page := get (GET request) "page" in
  let paginator := paginator.init jobs 10 in
  let jobs :=
    match paginator.page paginator page with
    | Return b => Return b
    | Raise PageNotAnInteger => paginator.page paginator (PyInt 1)
    | Raise EmptyPage =>
        paginator.page paginator (PyInt (paginator.num_pages paginator))
    end in
  match jobs with
  | Return b => Return (render self "jobs" b)
  | Raise e => Raise e
  end.
End JobIndexPage.

Module WorkIndexPage.
Definition work (store : Store) (self : Page) : list Page :=
  filter (fun p => live p && path_startswith (path self) p)
         (objects is_WorkPage store).

Definition serve (store : Store) (self : Page) (request : HttpRequest)
  : result TemplateResponse :=
  let work := work store self in
  let page := get (GET request) "page" in
  let paginator := paginator.init work 10 in
  let work :=
    match paginator.page paginator page with
    | Return b => Return b
    | Raise PageNotAnInteger => paginator.page paginator (PyInt 1)
    | Raise EmptyPage =>
        paginator.page paginator (PyInt (paginator.num_pages paginator))
    end in
  match work with
  | Return b => Return (render self "work" b)
  | Raise e => Raise e
  end.
End WorkIndexPage.

Module PersonIndexPage.
Definition people (store : Store) (self : Page) : list Page :=
  filter (fun p => live p && path_startswith (path self) p)
         (objects is_PersonPage store).

Definition serve (store : Store) (self : Page) (request : HttpRequest)
  : result TemplateResponse :=
  let people := people store self in
  let page := get (GET request) "page" in
  let paginator := paginator.init people 10 in
  let people :=
    match paginator.page paginator page with
    | Return b => Return b
    | Raise PageNotAnInteger => paginator.page paginator (PyInt 1)
    | Raise EmptyPage =>
        paginator.page paginator (PyInt (paginator.num_pages paginator))
    end in
  match people with
  | Return b => Return (render self "people" b)
  | Raise e => Raise e
  end.
End PersonIndexPage.

(** ** torchbox_tags.py: the top menu *)

(** A page object in a template context: the row, and the [show_dropdown]
    attribute once [top_menu] has set it. *)
Record MenuItem := {
  row : Page;
  show_dropdown : option bool
}.

Definition has_menu_children (store : Store) (page : Page) : bool :=
  if nonempty (filter (fun c => live c && show_in_menus c)
                      (get_children store page))
  then true
  else false.

Record TopMenuContext := {
  calling_page : option Page;
  menuitems : list MenuItem
}.

Definition top_menu (store : Store) (parent : Page)
  (calling_page : option Page) : TopMenuContext :=
  let menuitems :=
    map (fun c => {| row := c; show_dropdown := None |})
        (filter (fun c => live c && show_in_menus c)
                (get_children store parent)) in
  (* the loop sets the attribute on each object the queryset holds *)
  let menuitems :=
    map (fun menuitem =>
           {| row := row menuitem;
              show_dropdown := Some (has_menu_children store (row menuitem)) |})
        menuitems in
  {| calling_page := calling_page; menuitems := menuitems |}.

(** ** torchbox_tags.py: the other menus and the home page feeds *)

(** [top_menu_children]: the ['menuitems_children'] of the context. *)
Definition top_menu_children (store : Store) (parent : Page) : list Page :=
  let menuitems_children := get_children store parent in
  let menuitems_children :=
    filter (fun c => live c && show_in_menus c) menuitems_children in
  menuitems_children.

(** [MP_Node.get_siblings]: the rows at the depth of [self], by path; below
    the first level only those under the parent path
    [self.path[0:(depth - 1) * steplen]]. *)
Definition get_siblings (store : Store) (self : Page) : list Page :=
  let qset :=
    order_by (fun a b => String.leb (path a) (path b))
      (filter (fun p => depth p =? depth self) store) in
  if depth self >? 1 then
    let parentpath :=
      substring 0 (Z.to_nat (depth self - 1) * steplen) (path self) in
    filter (path_startswith parentpath) qset
  else qset.

(** [Page.get_other_siblings]: [get_siblings().exclude(id=self.id)]. *)
Definition get_other_siblings (store : Store) (self : Page) : list Page :=
  filter (fun p => negb (pk p =? pk self)) (get_siblings store self).

(** [secondary_menu]: the ['pages'] of the context. *)
Definition secondary_menu (store : Store) (calling_page : option Page)
  : list Page :=
  let pages := [] in
  match calling_page with
  | Some calling_page =>
      let pages :=
        filter (fun c => live c && show_in_menus c)
               (get_children store calling_page) in
      (* If no children, get siblings instead *)
      if Z.of_nat (List.length pages) =? 0 then
        filter (fun c => live c && show_in_menus c)
               (get_other_siblings store calling_page)
      else pages
  | None => pages
  end.

(** [queryset[:count]]; [None] stands for the [AssertionError] that a
    negative bound raises. *)
Definition up_to {A : Type} (l : list A) (count : Z) : option (list A) :=
  if count <? 0 then None else Some (firstn (Z.to_nat count) l).

(** [homepage_blog_listing]: the ['blogs'] of the context. *)
Definition homepage_blog_listing (store : Store) (count : Z)
  : option (list Page) :=
  let blogs :=
    order_by (fun a b => BlogPage.date b <=? BlogPage.date a)
      (filter (fun p => live p) (objects is_BlogPage store)) in
  up_to blogs count.

(** [homepage_job_listing]: the ['jobs'] of the context. *)
Definition homepage_job_listing (store : Store) (count : Z)
  : option (list Page) :=
  let jobs := filter (fun p => live p) (objects is_JobPage store) in
  up_to jobs count.

(** ** Well-formed page tables, and the notions the statements use *)

(** [MP_Node.is_child_of]. *)
Definition is_child_of (c node : Page) : bool :=
  path_startswith (path node) c && (depth c =? depth node + 1).

(** Every path is a whole number of steps long. *)
Definition whole_steps (store : Store) : bool :=
  forallb (fun p => (String.length (path p) mod steplen =? 0)%nat) store.

(** [path] is a unique column: no two rows share one. *)
Fixpoint unique_paths (store : Store) : bool :=
  match store with
  | [] => true
  | p :: rest =>
      negb (existsb (fun q => (path q =? path p)%string) rest)
      && unique_paths rest
  end.

Definition well_formed (store : Store) : bool :=
  whole_steps store && unique_paths store.

(** The four index listings, to state what they share once. *)
Inductive IndexKind := BlogIndex | JobIndex | WorkIndex | PersonIndex.

Definition serve_of (k : IndexKind)
  : Store -> Page -> HttpRequest -> result TemplateResponse :=
  match k with
  | BlogIndex => BlogIndexPage.serve
  | JobIndex => JobIndexPage.serve
  | WorkIndex => WorkIndexPage.serve
  | PersonIndex => PersonIndexPage.serve
  end.

(** The rows a listing paginates: for the blog index the blogs, narrowed to
    the tag when the request carries a non-empty one. *)
Definition rows_of (k : IndexKind) (store : Store) (self : Page)
  (request : HttpRequest) : list Page :=
  match k with
  | BlogIndex =>
      let tag := get (GET request) "tag" in
      if truthy tag
      then filter (BlogPage.tags__name tag) (BlogIndexPage.blogs store self)
      else BlogIndexPage.blogs store self
  | JobIndex => JobIndexPage.jobs store self
  | WorkIndex => WorkIndexPage.work store self
  | PersonIndex => PersonIndexPage.people store self
  end.

Definition name_of (k : IndexKind) : string :=
  match k with
  | BlogIndex => "blogs"
  | JobIndex => "jobs"
  | WorkIndex => "work"
  | PersonIndex => "people"
  end.

(** The try/except block that each [serve] runs on its rows. *)
Definition paginate (rows : list Page) (page : pyval)
  : result (paginator.Page Page) :=
  let pg := paginator.init rows 10 in
  match paginator.page pg page with
  | Return b => Return b
  | Raise PageNotAnInteger => paginator.page pg (PyInt 1)
  | Raise EmptyPage => paginator.page pg (PyInt (paginator.num_pages pg))
  end.

(** Page [n] of [rows], ten to a page. *)
Definition page_of (rows : list Page) (n : Z) : paginator.Page Page :=
  {| paginator.page_object_list :=
       firstn 10 (skipn (Z.to_nat (10 * (n - 1))) rows);
     paginator.number := n;
     paginator.of_paginator := paginator.init rows 10 |}.

(** The number of the last page of [rows]. *)
Definition last_page (rows : list Page) : Z :=
  paginator.num_pages (paginator.init rows 10).

(** The listing [k] answers [request] with page [n] of its rows. *)
Definition returns_page (k : IndexKind) (store : Store) (self : Page)
  (request : HttpRequest) (n : Z) : Prop :=
  serve_of k store self request
  = Return (render self (name_of k) (page_of (rows_of k store self request) n)).

(** The page number the try/except block ends on for the parameter [v]. *)
Definition settled_page (rows : list Page) (v : pyval) : Z :=
  match int v with
  | None => 1
  | Some n => if (n <? 1) || (n >? last_page rows) then last_page rows else n
  end.

(** The class of the rows that listing [k] shows. *)
Definition class_of (k : IndexKind) : Specific -> bool :=
  match k with
  | BlogIndex => is_BlogPage
  | JobIndex => is_JobPage
  | WorkIndex => is_WorkPage
  | PersonIndex => is_PersonPage
  end.

(** [p] is at the level of [node] and, below the first level, under the
    same parent path. *)
Definition is_sibling_of (p node : Page) : bool :=
  (depth p =? depth node)
  && (if depth node >? 1
      then path_startswith
             (substring 0 (Z.to_nat (depth node - 1) * steplen) (path node)) p
      else true).

(** A page that the menus show. *)
Definition in_menus (c : Page) : bool := live c && show_in_menus c.

(** Every time of day, minute by minute. *)
Definition all_times : list time :=
  flat_map (fun h => map (fun m => mk_time (Z.of_nat h) (Z.of_nat m))
                         (seq 0 60))
           (seq 0 24).

(** No two entries of [l] share a key. *)
Fixpoint distinct_keys {A : Type} (key : A -> string) (l : list A) : bool :=
  match l with
  | [] => true
  | x :: rest =>
      negb (existsb (fun y => (key y =? key x)%string) rest)
      && distinct_keys key rest
  end.

(** ** Sample data *)

Definition sample_row (n : Z) (p : string) (s : Specific) : Page :=
  {| pk := n; path := p; live := true; show_in_menus := true; specific := s |}.

Definition jobs_index : Page := sample_row 2 "00010001" jobindexpage.

(** A job index with eleven published job pages below it. *)
Definition jobs_store : Store :=
  sample_row 1 "0001" plainpage
  :: jobs_index
  :: map (fun '(n, step) => sample_row n ("00010001" ++ step) jobpage)
       [(3, "0001"); (4, "0002"); (5, "0003"); (6, "0004"); (7, "0005");
        (8, "0006"); (9, "0007"); (10, "0008"); (11, "0009"); (12, "000A");
        (13, "000B")].

Definition request_with (q : QueryDict) : HttpRequest := {| GET := q |}.

Definition blog_root : Page := sample_row 1 "0001" plainpage.
Definition blog_home : Page := sample_row 2 "00010001" homepage.
Definition blog_idx : Page := sample_row 3 "000100010001" blogindexpage.
Definition post_a : Page :=
  sample_row 4 "0001000100010001" (blogpage 735000 ["django"; "wagtail"]).
Definition post_b : Page :=
  sample_row 5 "0001000100010002" (blogpage 735010 ["wagtail"]).
Definition post_draft : Page :=
  {| pk := 6; path := "0001000100010003"; live := false;
     show_in_menus := false; specific := blogpage 735020 ["wagtail"] |}.
Definition post_stray : Page :=
  sample_row 7 "000100010002" (blogpage 735005 ["wagtail"]).

(** A site with a blog index, two published posts and a draft below it, and
    one post that sits beside the index. *)
Definition blog_store : Store :=
  [blog_root; blog_home; blog_idx; post_a; post_b; post_draft; post_stray].

(** A site with a blog post and no blog index. *)
Definition bare_store : Store := [blog_root; blog_home; post_stray].

(** * Facts about the building blocks *)

Section OrderByFacts.
Context {A : Type} (leb : A -> A -> bool).

Lemma insert_row_perm (x : A) (l : list A) :
  Permutation (insert_row leb x l) (x :: l).
Proof.
  induction l as [|y r IH]; simpl.
  - apply Permutation_refl.
  - destruct (leb x y).
    + apply Permutation_refl.
    + eapply perm_trans; [apply perm_skip, IH | apply perm_swap].
Qed.

Lemma order_by_perm (l : list A) : Permutation (order_by leb l) l.
Proof.
  induction l as [|x l IH]; simpl.
  - constructor.
  - eapply perm_trans; [apply insert_row_perm | now apply perm_skip].
Qed.

Lemma order_by_In (l : list A) (x : A) : In x (order_by leb l) <-> In x l.
Proof.
  split; apply Permutation_in;
    [apply order_by_perm | apply Permutation_sym, order_by_perm].
Qed.

Hypothesis leb_total : forall a b, leb a b = false -> leb b a = true.
Hypothesis leb_trans :
  forall a b c, leb a b = true -> leb b c = true -> leb a c = true.

Let le (a b : A) : Prop := leb a b = true.

Lemma insert_row_sorted (x : A) (l : list A) :
  StronglySorted le l -> StronglySorted le (insert_row leb x l).
Proof.
  induction 1 as [|y r Hs IH Hy]; simpl.
  - repeat constructor.
  - destruct (leb x y) eqn:E.
    + constructor; [now constructor|].
      constructor; [exact E|].
      eapply Forall_impl; [|exact Hy].
      intros z Hz. now apply (leb_trans x y z).
    + constructor; [exact IH|].
      rewrite Forall_forall. intros z Hz.
      apply (Permutation_in _ (insert_row_perm x r)) in Hz.
      destruct Hz as [<-|Hz].
      * now apply leb_total.
      * rewrite Forall_forall in Hy. now apply Hy.
Qed.

Lemma order_by_sorted (l : list A) : StronglySorted le (order_by leb l).
Proof.
  induction l as [|x l IH]; simpl.
  - constructor.
  - now apply insert_row_sorted.
Qed.
End OrderByFacts.

Lemma StronglySorted_filter {A : Type} (R : A -> A -> Prop) (f : A -> bool)
  (l : list A) : StronglySorted R l -> StronglySorted R (filter f l).
Proof.
  induction 1 as [|x l Hs IH Hx]; simpl.
  - constructor.
  - destruct (f x); [|exact IH].
    constructor; [exact IH|].
    rewrite Forall_forall in *. intros y Hy.
    apply filter_In in Hy. now apply Hx.
Qed.

Lemma StronglySorted_before {A : Type} (R : A -> A -> Prop) (l1 l2 : list A)
  (a : A) :
  StronglySorted R (l1 ++ a :: l2)%list -> forall b, In b l1 -> R b a.
Proof.
  induction l1 as [|x l1 IH]; simpl; intros Hs b Hb.
  - contradiction.
  - inversion Hs as [|? ? Hs' Hx]; subst.
    destruct Hb as [<-|Hb].
    + rewrite Forall_forall in Hx. apply Hx, in_elt.
    + now apply IH.
Qed.

(** [find] stops at the first row that passes. *)
Lemma find_split {A : Type} (f : A -> bool) (l : list A) (a : A) :
  find f l = Some a ->
  exists l1 l2 : list A, l = (l1 ++ a :: l2)%list /\ f a = true
                /\ Forall (fun x => f x = false) l1.
Proof.
  induction l as [|x l IH]; simpl; [discriminate|].
  destruct (f x) eqn:E.
  - intros [= <-]. exists [], l. repeat split; [exact E | constructor].
  - intros H. destruct (IH H) as (l1 & l2 & -> & Ha & Hl1).
    exists (x :: l1), l2. repeat split; [exact Ha | now constructor].
Qed.

Lemma find_existsb {A : Type} (f : A -> bool) (l : list A) :
  existsb f l = true -> exists a, find f l = Some a.
Proof.
  induction l as [|x l IH]; simpl; [discriminate|].
  destruct (f x); [now exists x | exact IH].
Qed.

Lemma find_none_existsb {A : Type} (f : A -> bool) (l : list A) :
  existsb f l = false -> find f l = None.
Proof.
  induction l as [|x l IH]; simpl; [reflexivity|].
  destruct (f x); [discriminate | exact IH].
Qed.

(** ** The paginator *)

Lemma last_page_ge_1 (rows : list Page) : 1 <= last_page rows.
Proof.
  unfold last_page, paginator.num_pages, paginator.count; simpl.
  rewrite andb_false_r.
  apply Z.div_le_lower_bound; lia.
Qed.

Lemma last_page_single (rows : list Page) :
  (List.length rows <= 10)%nat -> last_page rows = 1.
Proof.
  intros H. unfold last_page, paginator.num_pages, paginator.count; simpl.
  rewrite andb_false_r.
  apply Z.le_antisymm.
  - apply Z.lt_succ_r, Z.div_lt_upper_bound; lia.
  - apply Z.div_le_lower_bound; lia.
Qed.

Lemma slice_to_end {A : Type} (l : list A) (b : Z) :
  0 <= b -> b + 10 >= Z.of_nat (List.length l) ->
  slice l b (Z.of_nat (List.length l)) = firstn 10 (skipn (Z.to_nat b) l).
Proof.
  intros Hb Hc. unfold slice.
  rewrite !firstn_all2; [reflexivity| |]; rewrite length_skipn; lia.
Qed.

Lemma page_int (rows : list Page) (n : Z) :
  1 <= n <= last_page rows ->
  paginator.page (paginator.init rows 10) (PyInt n) = Return (page_of rows n).
Proof.
  intros [H1 Hn]. unfold last_page in Hn.
  unfold paginator.page, paginator.validate_number, page_of.
  cbn [int].
  rewrite (proj2 (Z.ltb_ge n 1)) by lia.
  rewrite Z.gtb_ltb, (proj2 (Z.ltb_ge _ n)) by lia.
  unfold paginator.count.
  cbn [paginator.init paginator.per_page paginator.orphans
       paginator.object_list].
  f_equal. f_equal.
  replace (10 * (n - 1)) with ((n - 1) * 10) by lia.
  destruct (Z.geb_spec ((n - 1) * 10 + 10 + 0) (Z.of_nat (List.length rows))).
  - apply slice_to_end; lia.
  - unfold slice. f_equal. lia.
Qed.

Lemma paginate_settles (rows : list Page) (v : pyval) :
  paginate rows v = Return (page_of rows (settled_page rows v)).
Proof.
  pose proof (last_page_ge_1 rows) as Hge.
  unfold paginate, settled_page.
  destruct (int v) as [n|] eqn:Ev.
  - destruct (Z.ltb_spec n 1) as [Hlt|Hle]; simpl.
    + unfold paginator.page at 1, paginator.validate_number.
      rewrite Ev. destruct (Z.ltb_spec n 1); [|lia].
      apply page_int. lia.
    + destruct (Z.gtb_spec n (last_page rows)) as [Hgt|Hin].
      * unfold paginator.page at 1, paginator.validate_number.
        rewrite Ev. destruct (Z.ltb_spec n 1); [lia|].
        fold (last_page rows).
        destruct (Z.gtb_spec n (last_page rows)); [|lia].
        destruct (Z.eqb_spec n 1); [lia|]. simpl.
        apply page_int. lia.
      * assert (Hp : paginator.page (paginator.init rows 10) v
                     = Return (page_of rows n)).
        { rewrite <- (page_int rows n) by lia.
          unfold paginator.page, paginator.validate_number.
          now rewrite Ev. }
        now rewrite Hp.
  - unfold paginator.page at 1, paginator.validate_number.
    rewrite Ev. apply page_int. lia.
Qed.

Lemma serve_of_paginate (k : IndexKind) (store : Store) (self : Page)
  (request : HttpRequest) :
  serve_of k store self request
  = match paginate (rows_of k store self request) (get (GET request) "page")
    with
    | Return b => Return (render self (name_of k) b)
    | Raise e => Raise e
    end.
Proof. destruct k; reflexivity. Qed.

Lemma serve_of_settles (k : IndexKind) (store : Store) (self : Page)
  (request : HttpRequest) :
  returns_page k store self request
    (settled_page (rows_of k store self request) (get (GET request) "page")).
Proof.
  unfold returns_page. rewrite serve_of_paginate.
  now rewrite paginate_settles.
Qed.

(** ** The query string *)

Lemma get_without (key k : string) (q : QueryDict) :
  get (without key q) k = if (key =? k)%string then PyNone else get q k.
Proof.
  induction q as [|[k0 v] q IH]; simpl.
  - now destruct (key =? k)%string.
  - destruct (String.eqb_spec k0 key) as [->|Hk0]; simpl.
    + rewrite IH. destruct (String.eqb_spec key k) as [_|Hk].
      * reflexivity.
      * now destruct (get q k).
    + rewrite IH. destruct (String.eqb_spec key k) as [<-|Hk].
      * destruct (String.eqb_spec k0 key); [contradiction | reflexivity].
      * reflexivity.
Qed.

(** ** Paths *)

Lemma prefix_length (s1 s2 : string) :
  String.prefix s1 s2 = true -> (String.length s1 <= String.length s2)%nat.
Proof.
  revert s2. induction s1 as [|c s1 IH]; intros [|d s2]; simpl;
    try discriminate; try lia.
  destruct (Ascii.ascii_dec c d); [|discriminate].
  intros H. apply IH in H. lia.
Qed.

Lemma prefix_same_length (s1 s2 : string) :
  String.prefix s1 s2 = true -> String.length s1 = String.length s2 ->
  s1 = s2.
Proof.
  revert s2. induction s1 as [|c s1 IH]; intros [|d s2]; simpl;
    try discriminate; try reflexivity.
  destruct (Ascii.ascii_dec c d) as [->|]; [|discriminate].
  intros H [= Hl]. f_equal. now apply IH.
Qed.

Lemma unique_paths_inj (store : Store) (p q : Page) :
  unique_paths store = true -> In p store -> In q store ->
  path p = path q -> p = q.
Proof.
  induction store as [|x store IH]; simpl; [contradiction|].
  rewrite andb_true_iff, negb_true_iff. intros [Hx Hu] Hp Hq Hpq.
  assert (Hnot : forall y, In y store -> path y <> path x).
  { intros y Hy Hyx.
    assert (E : existsb (fun q0 => (path q0 =? path x)%string) store = true).
    { apply existsb_exists. exists y. split; [exact Hy|].
      now apply String.eqb_eq. }
    congruence. }
  destruct Hp as [<-|Hp], Hq as [<-|Hq].
  - reflexivity.
  - exfalso. now apply (Hnot q Hq).
  - exfalso. now apply (Hnot p Hp).
  - now apply IH.
Qed.

Lemma whole_steps_In (store : Store) (p : Page) :
  whole_steps store = true -> In p store ->
  (String.length (path p) mod steplen = 0)%nat.
Proof.
  unfold whole_steps. rewrite forallb_forall. intros H Hp.
  now apply Nat.eqb_eq, H.
Qed.

(** Below a row of a well-formed table, "the path starts with its path"
    and "is a descendant of it" say the same of any other row. *)
Lemma startswith_descendant (store : Store) (self p : Page) :
  well_formed store = true -> In self store -> In p store -> p <> self ->
  path_startswith (path self) p = true <-> is_descendant_of p self = true.
Proof.
  unfold well_formed, is_descendant_of. rewrite !andb_true_iff.
  intros [Hw Hu] Hs Hp Hne. split; [|tauto].
  intros Hpre. split; [exact Hpre|].
  apply Z.ltb_lt. unfold depth.
  pose proof (prefix_length _ _ Hpre) as Hle.
  assert (Hlt : String.length (path self) <> String.length (path p)).
  { intros E. apply Hne. apply (unique_paths_inj store); trivial.
    symmetry. now apply prefix_same_length. }
  pose proof (whole_steps_In store self Hw Hs) as Ms.
  pose proof (whole_steps_In store p Hw Hp) as Mp.
  unfold steplen in *.
  pose proof (Nat.div_mod_eq (String.length (path self)) 4).
  pose proof (Nat.div_mod_eq (String.length (path p)) 4).
  lia.
Qed.

Lemma In_firstn_skipn {A : Type} (n m : nat) (l : list A) (x : A) :
  In x (firstn n (skipn m l)) -> In x l.
Proof.
  intros H.
  rewrite <- (firstn_skipn m l). apply in_or_app. right.
  rewrite <- (firstn_skipn n (skipn m l)). apply in_or_app. now left.
Qed.

Lemma StronglySorted_impl {A : Type} (R R' : A -> A -> Prop) (l : list A) :
  (forall a b, R a b -> R' a b) -> StronglySorted R l -> StronglySorted R' l.
Proof.
  intros HR. induction 1 as [|x l Hs IH Hx]; constructor; trivial.
  eapply Forall_impl; [|exact Hx]. intros b. apply HR.
Qed.

(** A list in descending key order whose keys are pairwise distinct is in
    strictly descending key order. *)
Lemma StronglySorted_strict {A : Type} (key : A -> Z) (l : list A) :
  StronglySorted (fun a b => key a >= key b) l ->
  NoDup (map key l) ->
  StronglySorted (fun a b => key a > key b) l.
Proof.
  induction 1 as [|x l Hs IH Hx]; simpl; intros Hnd; constructor.
  - apply IH. now inversion Hnd.
  - inversion Hnd as [|? ? Hnotin _]; subst.
    rewrite Forall_forall in *. intros y Hy.
    assert (key x <> key y).
    { intros E. apply Hnotin. rewrite E. now apply in_map. }
    specialize (Hx y Hy). lia.
Qed.

(** ** The blog listing *)

Lemma blogs_In (store : Store) (self p : Page) :
  In p (BlogIndexPage.blogs store self) <->
  In p store /\ is_BlogPage (specific p) = true /\ live p = true
  /\ path_startswith (path self) p = true.
Proof.
  unfold BlogIndexPage.blogs, objects.
  rewrite order_by_In, !filter_In, andb_true_iff. tauto.
Qed.

Lemma blogs_descendants (store : Store) (self p : Page) :
  well_formed store = true -> In self store ->
  is_BlogIndexPage (specific self) = true ->
  In p (BlogIndexPage.blogs store self) <->
  In p store /\ is_BlogPage (specific p) = true /\ live p = true
  /\ is_descendant_of p self = true.
Proof.
  intros Hw Hs Hidx. rewrite blogs_In.
  split; intros (Hp & Hb & Hl & Hd); repeat split; trivial.
  - apply (startswith_descendant store); trivial.
    intros ->. destruct (specific self); discriminate.
  - unfold is_descendant_of in Hd. now apply andb_true_iff in Hd.
Qed.

Lemma blogs_sorted (store : Store) (self : Page) :
  StronglySorted (fun a b => BlogPage.date a >= BlogPage.date b)
    (BlogIndexPage.blogs store self).
Proof.
  unfold BlogIndexPage.blogs.
  eapply StronglySorted_impl; [|apply order_by_sorted].
  - intros a b H. apply Z.leb_le in H. lia.
  - intros a b H. apply Z.leb_gt in H. apply Z.leb_le. lia.
  - intros a b c H1 H2. apply Z.leb_le in H1, H2. apply Z.leb_le. lia.
Qed.

(** ** Ancestors and children *)

(** The paths [get_ancestors] asks for are the cuts of the path at a whole
    number of steps, at least one and short of the whole path. *)
Lemma ancestor_paths_spec (p q : string) :
  In q (ancestor_paths p) <->
  exists k : nat, (1 <= k)%nat /\ (k * steplen < String.length p)%nat
                  /\ q = substring 0 (k * steplen) p.
Proof.
  unfold ancestor_paths. rewrite in_map_iff.
  assert (Hk : forall k : nat,
             In k (seq 1 ((String.length p + steplen - 1) / steplen - 1))
             <-> (1 <= k)%nat /\ (k * steplen < String.length p)%nat).
  { intros k. rewrite in_seq. unfold steplen.
    pose proof (Nat.div_mod_eq (String.length p + 4 - 1) 4).
    pose proof (Nat.mod_upper_bound (String.length p + 4 - 1) 4).
    lia. }
  split.
  - intros (k & <- & Hin). exists k. apply Hk in Hin. tauto.
  - intros (k & H1 & H2 & ->). exists k. split; [reflexivity|].
    apply Hk. tauto.
Qed.

Lemma get_ancestors_In (store : Store) (self a : Page) :
  In a (get_ancestors store self) <->
  In a store /\ In (path a) (ancestor_paths (path self)).
Proof.
  unfold get_ancestors. rewrite order_by_In, filter_In, existsb_exists.
  split.
  - intros (Ha & q & Hq & E). apply String.eqb_eq in E. now subst q.
  - intros (Ha & Hq). split; [exact Ha|].
    exists (path a). split; [exact Hq | apply String.eqb_refl].
Qed.

(** [get_ancestors] lists the ancestors from the root down. *)
Lemma get_ancestors_sorted (store : Store) (self : Page) :
  StronglySorted (fun a b => depth a <= depth b) (get_ancestors store self).
Proof.
  unfold get_ancestors.
  eapply StronglySorted_impl; [|apply order_by_sorted].
  - intros a b H. now apply Z.leb_le in H.
  - intros a b H. apply Z.leb_gt in H. apply Z.leb_le. lia.
  - intros a b c H1 H2. apply Z.leb_le in H1, H2. apply Z.leb_le. lia.
Qed.

Lemma StronglySorted_after {A : Type} (R : A -> A -> Prop) (l1 l2 : list A)
  (a : A) :
  StronglySorted R (l1 ++ a :: l2)%list -> Forall (R a) l2.
Proof.
  induction l1 as [|x l1 IH]; simpl; intros Hs.
  - now inversion Hs.
  - inversion Hs; subst. now apply IH.
Qed.

Lemma get_children_In (store : Store) (self c : Page) :
  In c (get_children store self) <->
  In c store /\ is_child_of c self = true.
Proof.
  unfold get_children, is_child_of.
  rewrite order_by_In, filter_In, andb_comm. reflexivity.
Qed.

Lemma has_menu_children_iff (store : Store) (page : Page) :
  has_menu_children store page = true <->
  exists c, In c store /\ is_child_of c page = true
            /\ live c = true /\ show_in_menus c = true.
Proof.
  unfold has_menu_children.
  destruct (filter _ (get_children store page)) as [|c l] eqn:E; simpl.
  - split; [discriminate|]. intros (c & Hc & Hch & Hl & Hm).
    assert (Hin : In c []).
    { rewrite <- E. apply filter_In. rewrite get_children_In.
      rewrite Hl, Hm. tauto. }
    contradiction.
  - split; [intros _|reflexivity].
    assert (Hin : In c (c :: l)) by now left.
    rewrite <- E in Hin. apply filter_In in Hin.
    rewrite get_children_In, andb_true_iff in Hin.
    exists c. tauto.
Qed.

Lemma existsb_rev {A : Type} (f : A -> bool) (l : list A) :
  existsb f (rev l) = existsb f l.
Proof.
  induction l as [|x l IH]; simpl; [reflexivity|].
  rewrite existsb_app, IH. simpl. rewrite orb_false_r. apply orb_comm.
Qed.

(** ** The blog index of a blog page *)

Lemma blog_index_fallback (store : Store) (self : Page) :
  existsb (fun a => is_BlogIndexPage (specific a)) (get_ancestors store self)
  = false ->
  BlogPage.blog_index store self = first (objects is_BlogIndexPage store).
Proof.
  intros H. unfold BlogPage.blog_index.
  rewrite find_none_existsb; [reflexivity|].
  now rewrite existsb_rev.
Qed.

(** ** The hour on the 12-hour clock *)

Lemma hour12_range (h : Z) : 0 <= h < 24 -> 1 <= hour12 h <= 12.
Proof.
  intros Hh. unfold hour12.
  pose proof (Z.mod_pos_bound h 12 ltac:(lia)).
  destruct (Z.eqb_spec (h mod 12) 0); lia.
Qed.

Lemma hour12_twelve (h : Z) :
  0 <= h < 24 -> (hour12 h = 12 <-> h = 0 \/ h = 12).
Proof.
  intros Hh. unfold hour12.
  pose proof (Z.mod_pos_bound h 12 ltac:(lia)).
  pose proof (Z.div_mod h 12 ltac:(lia)).
  assert (h / 12 = 0 \/ h / 12 = 1).
  { assert (0 <= h / 12) by (apply Z.div_pos; lia).
    assert (h / 12 < 2) by (apply Z.div_lt_upper_bound; lia).
    lia. }
  destruct (Z.eqb_spec (h mod 12) 0); lia.
Qed.

(** [str] of an hour of the 12-hour clock starts with a digit other
    than 0. *)
Lemma str_hour_first (n : Z) :
  1 <= n <= 12 -> exists c r, str n = String c r /\ c <> "0"%char.
Proof.
  intros Hn.
  assert (E : n = 1 \/ n = 2 \/ n = 3 \/ n = 4 \/ n = 5 \/ n = 6 \/ n = 7
              \/ n = 8 \/ n = 9 \/ n = 10 \/ n = 11 \/ n = 12) by lia.
  repeat (destruct E as [->|E]; [eexists; eexists; split;
                                  [reflexivity | discriminate]|]).
  subst n. eexists; eexists; split; [reflexivity | discriminate].
Qed.

Lemma time_display_as_spec (t : time) :
  0 <= hour t < 24 -> 0 <= minute t < 60 ->
  time_display t = time_display_spec t.
Proof.
  destruct t as [h m]; cbn [hour minute]. intros Hh Hm.
  unfold time_display, time_display_spec, hour12, join; cbn [hour minute].
  destruct (Z.geb_spec h 12) as [Hpm|Ham].
  - replace (h mod 12) with (h - 12)
      by (apply (Z.mod_unique h 12 1); lia).
    destruct (Z.ltb_spec h 12); [lia|].
    destruct (Z.eqb_spec (h - 12) 0), (Z.eqb_spec m 0); reflexivity.
  - rewrite Z.mod_small by lia.
    destruct (Z.ltb_spec h 12); [|lia].
    destruct (Z.eqb_spec h 0), (Z.eqb_spec m 0); reflexivity.
Qed.

(** * The claims *)

(** C1, as stated, fails: with eleven published jobs the job index answers
    [page=0] with page 2, the last page, not with page 1. *)
Lemma page_zero_is_last_page :
  get (GET (request_with [("page", "0")])) "page" = PyStr "0"
  /\ returns_page JobIndex jobs_store jobs_index
       (request_with [("page", "0")]) 2
  /\ ~ returns_page JobIndex jobs_store jobs_index
         (request_with [("page", "0")]) 1.
Proof.
  split; [reflexivity|].
  assert (H2 : returns_page JobIndex jobs_store jobs_index
                 (request_with [("page", "0")]) 2)
    by (vm_compute; reflexivity).
  split; [exact H2|].
  unfold returns_page in *. rewrite H2. intros H.
  apply (f_equal (fun r => match r with
                           | Return x => paginator.number (listing x)
                           | Raise _ => 0
                           end)) in H.
  discriminate H.
Qed.

(** C1, amended: for each of the four index listings, [page=abc] is answered
    with page 1; [page=0] and [page=-1] are answered with the last page of
    the rows, which is page 1 when the rows fit on one page. *)
Theorem index_page_param_fallback (k : IndexKind) (store : Store)
  (self : Page) (request : HttpRequest) :
  (get (GET request) "page" = PyStr "abc" ->
   returns_page k store self request 1)
  /\ (get (GET request) "page" = PyStr "0"
      \/ get (GET request) "page" = PyStr "-1" ->
      returns_page k store self request
        (last_page (rows_of k store self request))
      /\ ((List.length (rows_of k store self request) <= 10)%nat ->
          returns_page k store self request 1)).
Proof.
  pose proof (serve_of_settles k store self request) as Hs.
  split.
  - intros Hp. now rewrite Hp in Hs.
  - intros Hp.
    assert (Hl : returns_page k store self request
                   (last_page (rows_of k store self request))).
    { destruct Hp as [Hp|Hp]; rewrite Hp in Hs; exact Hs. }
    split; [exact Hl|].
    intros Hlen. now rewrite (last_page_single _ Hlen) in Hl.
Qed.

Lemma index_page_param_fallback_witness :
  returns_page JobIndex jobs_store jobs_index
    (request_with [("page", "abc")]) 1
  /\ returns_page JobIndex jobs_store jobs_index
       (request_with [("page", "-1")])
       (last_page (rows_of JobIndex jobs_store jobs_index
                     (request_with [("page", "-1")]))).
Proof.
  split.
  - apply (proj1 (index_page_param_fallback JobIndex jobs_store jobs_index
                    (request_with [("page", "abc")]))).
    reflexivity.
  - apply (proj2 (index_page_param_fallback JobIndex jobs_store jobs_index
                    (request_with [("page", "-1")]))).
    right. reflexivity.
Defined.

(** C3: for each of the four index listings, a numeric [page] above the
    number of pages is answered with the last page, and [serve] returns a
    response, raising nothing, whatever the [page] parameter is. *)
Theorem index_page_beyond_last (k : IndexKind) (store : Store) (self : Page)
  (request : HttpRequest) :
  (forall n : Z,
      int (get (GET request) "page") = Some n ->
      n > last_page (rows_of k store self request) ->
      returns_page k store self request
        (last_page (rows_of k store self request)))
  /\ (exists response, serve_of k store self request = Return response).
Proof.
  pose proof (serve_of_settles k store self request) as Hs.
  split.
  - intros n Hn Hgt. unfold settled_page in Hs. rewrite Hn in Hs.
    destruct (Z.gtb_spec n (last_page (rows_of k store self request)));
      [|lia].
    now rewrite orb_true_r in Hs.
  - eexists. exact Hs.
Qed.

Lemma index_page_beyond_last_witness :
  returns_page JobIndex jobs_store jobs_index
    (request_with [("page", "7")]) 2.
Proof.
  apply (proj1 (index_page_beyond_last JobIndex jobs_store jobs_index
                  (request_with [("page", "7")])) 7).
  - reflexivity.
  - vm_compute. reflexivity.
Defined.

(** C9: a blog index request whose [tag] parameter is present but empty is
    answered as the same request with [tag] left out. *)
Theorem empty_tag_is_no_tag (store : Store) (self : Page)
  (request : HttpRequest) :
  get (GET request) "tag" = PyStr "" ->
  BlogIndexPage.serve store self request
  = BlogIndexPage.serve store self
      (request_with (without "tag" (GET request))).
Proof.
  intros Ht. unfold BlogIndexPage.serve, request_with; cbn [GET].
  rewrite !get_without, Ht. reflexivity.
Qed.

Lemma empty_tag_is_no_tag_witness :
  BlogIndexPage.serve blog_store blog_idx
    (request_with [("tag", ""); ("page", "1")])
  = BlogIndexPage.serve blog_store blog_idx
      (request_with (without "tag" [("tag", ""); ("page", "1")])).
Proof.
  apply (empty_tag_is_no_tag blog_store blog_idx
           (request_with [("tag", ""); ("page", "1")])).
  reflexivity.
Defined.

(** C5: the [blogs] of a blog index page hold only published blog pages
    that are descendants of it, in descending order of post date; when the
    dates of the listed posts are pairwise distinct the order is strictly
    descending. *)
Theorem blogs_published_by_date (store : Store) (self : Page) :
  well_formed store = true -> In self store ->
  is_BlogIndexPage (specific self) = true ->
  Forall (fun p => In p store /\ is_BlogPage (specific p) = true
                   /\ live p = true /\ is_descendant_of p self = true)
         (BlogIndexPage.blogs store self)
  /\ StronglySorted (fun a b => BlogPage.date a >= BlogPage.date b)
       (BlogIndexPage.blogs store self)
  /\ (NoDup (map BlogPage.date (BlogIndexPage.blogs store self)) ->
      StronglySorted (fun a b => BlogPage.date a > BlogPage.date b)
        (BlogIndexPage.blogs store self)).
Proof.
  intros Hw Hs Hidx. split; [|split].
  - rewrite Forall_forall. intros p Hp.
    now apply (blogs_descendants store self p Hw Hs Hidx).
  - apply blogs_sorted.
  - apply StronglySorted_strict, blogs_sorted.
Qed.

Lemma blogs_published_by_date_witness :
  Forall (fun p => In p blog_store /\ is_BlogPage (specific p) = true
                   /\ live p = true /\ is_descendant_of p blog_idx = true)
         (BlogIndexPage.blogs blog_store blog_idx)
  /\ StronglySorted (fun a b => BlogPage.date a > BlogPage.date b)
       (BlogIndexPage.blogs blog_store blog_idx).
Proof.
  destruct (blogs_published_by_date blog_store blog_idx) as (H1 & _ & H3).
  - reflexivity.
  - simpl. tauto.
  - reflexivity.
  - split; [exact H1|]. apply H3.
    vm_compute. repeat constructor; simpl; intuition discriminate.
Defined.

(** C4: a blog index request with a non-empty [tag=X] is answered from a
    listing that holds exactly the published blog pages below the index
    whose tags include X; the page shown is cut from that listing. *)
Theorem tagged_listing (store : Store) (self : Page) (request : HttpRequest)
  (X : string) :
  well_formed store = true -> In self store ->
  is_BlogIndexPage (specific self) = true ->
  get (GET request) "tag" = PyStr X -> X <> "" ->
  exists response,
    BlogIndexPage.serve store self request = Return response
    /\ (forall p,
          In p (paginator.object_list (paginator.of_paginator
                                         (listing response)))
          <-> In p store /\ is_BlogPage (specific p) = true
              /\ live p = true /\ is_descendant_of p self = true
              /\ In X (BlogPage.tags p))
    /\ (forall p,
          In p (paginator.page_object_list (listing response)) ->
          In p (paginator.object_list (paginator.of_paginator
                                         (listing response)))).
Proof.
  intros Hw Hs Hidx Htag HX.
  pose proof (serve_of_settles BlogIndex store self request) as Hr.
  unfold returns_page in Hr. cbn [serve_of name_of] in Hr.
  eexists. split; [exact Hr|].
  cbn [listing render paginator.of_paginator page_of paginator.object_list
       paginator.init paginator.page_object_list].
  split.
  - intros p. unfold rows_of. rewrite Htag. cbn [truthy].
    apply String.eqb_neq in HX. rewrite HX. cbn [negb].
    rewrite filter_In, (blogs_descendants store self p Hw Hs Hidx).
    unfold BlogPage.tags__name. rewrite existsb_exists.
    split.
    + intros ((Hp & Hb & Hl & Hd) & (t & Ht & E)).
      apply String.eqb_eq in E. subst t. tauto.
    + intros (Hp & Hb & Hl & Hd & Ht). split; [tauto|].
      exists X. split; [exact Ht | apply String.eqb_refl].
  - intros p. apply In_firstn_skipn.
Qed.

Lemma tagged_listing_witness :
  exists response,
    BlogIndexPage.serve blog_store blog_idx
      (request_with [("tag", "django")]) = Return response
    /\ (forall p,
          In p (paginator.object_list (paginator.of_paginator
                                         (listing response)))
          <-> In p blog_store /\ is_BlogPage (specific p) = true
              /\ live p = true /\ is_descendant_of p blog_idx = true
              /\ In "django" (BlogPage.tags p))
    /\ (forall p,
          In p (paginator.page_object_list (listing response)) ->
          In p (paginator.object_list (paginator.of_paginator
                                         (listing response)))).
Proof.
  apply (tagged_listing blog_store blog_idx
           (request_with [("tag", "django")]) "django").
  - reflexivity.
  - simpl. tauto.
  - reflexivity.
  - reflexivity.
  - discriminate.
Defined.

(** C2: when some ancestor of a blog entry is a blog index, [blog_index]
    returns the nearest such ancestor: the ancestors run from the root down,
    the one returned is a blog index, and none nearer to the entry is; when
    no ancestor is a blog index, it returns the first blog index of the
    page table. *)
Theorem blog_index_nearest_or_first (store : Store) (self : Page) :
  (existsb (fun a => is_BlogIndexPage (specific a))
           (get_ancestors store self) = true ->
   exists (r : Page) (further nearer : list Page),
     BlogPage.blog_index store self = Some r
     /\ get_ancestors store self = (further ++ r :: nearer)%list
     /\ is_BlogIndexPage (specific r) = true
     /\ Forall (fun b => is_BlogIndexPage (specific b) = false) nearer
     /\ Forall (fun b => depth b <= depth r) further
     /\ Forall (fun b => depth r <= depth b) nearer)
  /\ (existsb (fun a => is_BlogIndexPage (specific a))
              (get_ancestors store self) = false ->
      BlogPage.blog_index store self
      = first (objects is_BlogIndexPage store)).
Proof.
  split; [|apply blog_index_fallback].
  intros Hex. rewrite <- existsb_rev in Hex.
  destruct (find_existsb _ _ Hex) as [r Hr].
  destruct (find_split _ _ _ Hr) as (l1 & l2 & Hrev & Hidx & Hl1).
  assert (Hanc : get_ancestors store self = (rev l2 ++ r :: rev l1)%list).
  { rewrite <- (rev_involutive (get_ancestors store self)), Hrev.
    rewrite rev_app_distr. simpl. now rewrite <- app_assoc. }
  pose proof (get_ancestors_sorted store self) as Hs. rewrite Hanc in Hs.
  exists r, (rev l2), (rev l1).
  split; [unfold BlogPage.blog_index; now rewrite Hr|].
  split; [exact Hanc|]. split; [exact Hidx|]. split; [|split].
  - rewrite Forall_forall in *. intros b Hb. apply Hl1. now apply in_rev.
  - rewrite Forall_forall. intros b Hb.
    now apply (StronglySorted_before _ _ _ _ Hs).
  - now apply (StronglySorted_after _ _ _ _ Hs).
Qed.

Lemma blog_index_nearest_or_first_witness :
  (exists (r : Page) (further nearer : list Page),
     BlogPage.blog_index blog_store post_a = Some r
     /\ get_ancestors blog_store post_a = (further ++ r :: nearer)%list
     /\ is_BlogIndexPage (specific r) = true
     /\ Forall (fun b => is_BlogIndexPage (specific b) = false) nearer
     /\ Forall (fun b => depth b <= depth r) further
     /\ Forall (fun b => depth r <= depth b) nearer)
  /\ BlogPage.blog_index blog_store post_stray
     = first (objects is_BlogIndexPage blog_store).
Proof.
  split.
  - apply (proj1 (blog_index_nearest_or_first blog_store post_a)).
    reflexivity.
  - apply (proj2 (blog_index_nearest_or_first blog_store post_stray)).
    reflexivity.
Defined.

(** C10: when no ancestor of a blog entry is a blog index and the page
    table holds no blog index at all, [blog_index] returns [None]. *)
Theorem blog_index_none (store : Store) (self : Page) :
  existsb (fun a => is_BlogIndexPage (specific a)) (get_ancestors store self)
  = false ->
  objects is_BlogIndexPage store = [] ->
  BlogPage.blog_index store self = None.
Proof.
  intros Hanc Hnone. rewrite (blog_index_fallback _ _ Hanc), Hnone.
  reflexivity.
Qed.

Lemma blog_index_none_witness :
  BlogPage.blog_index bare_store post_stray = None.
Proof.
  apply (blog_index_none bare_store post_stray); reflexivity.
Defined.

(** C8: the top menu of a root page is made of its published, nav-visible
    immediate children, and the dropdown flag of an item is true exactly
    when that child has a published, nav-visible child of its own. *)
Theorem top_menu_items (store : Store) (parent : Page)
  (calling : option Page) :
  map row (menuitems (top_menu store parent calling))
  = filter (fun c => live c && show_in_menus c) (get_children store parent)
  /\ (forall c,
        In c (map row (menuitems (top_menu store parent calling)))
        <-> In c store /\ is_child_of c parent = true
            /\ live c = true /\ show_in_menus c = true)
  /\ Forall (fun m =>
               exists flag, show_dropdown m = Some flag
                 /\ (flag = true <->
                     exists c, In c store /\ is_child_of c (row m) = true
                               /\ live c = true /\ show_in_menus c = true))
            (menuitems (top_menu store parent calling)).
Proof.
  assert (Hrows : map row (menuitems (top_menu store parent calling))
                  = filter (fun c => live c && show_in_menus c)
                      (get_children store parent)).
  { unfold top_menu; cbn [menuitems]. rewrite !map_map. apply map_id. }
  split; [exact Hrows|]. split.
  - intros c. rewrite Hrows, filter_In, get_children_In, andb_true_iff.
    tauto.
  - unfold top_menu; cbn [menuitems]. rewrite map_map.
    rewrite Forall_map. rewrite Forall_forall. intros c _.
    cbn [row show_dropdown].
    exists (has_menu_children store c). split; [reflexivity|].
    apply has_menu_children_iff.
Qed.

(** C6: [link] is the URL of the linked page when one is set, whatever the
    other two fields hold; else the URL of the linked document when one is
    set, whatever the external URL is; else the external URL itself. *)
Theorem link_priority (self : LinkFields) :
  (forall p, link_page self = Some p -> link self = lp_url p)
  /\ (forall d, link_page self = None -> link_document self = Some d ->
                link self = doc_url d)
  /\ (link_page self = None -> link_document self = None ->
      link self = Some (link_external self)).
Proof.
  unfold link. repeat split.
  - intros p ->. reflexivity.
  - intros d -> ->. reflexivity.
  - intros -> ->. reflexivity.
Qed.

Lemma link_priority_witness :
  link {| link_external := "http://example.com/";
          link_page := Some {| lp_url := Some "/about/" |};
          link_document := Some {| doc_url := Some "/documents/1/a.pdf" |} |}
  = Some "/about/"
  /\ link {| link_external := "http://example.com/";
             link_page := None;
             link_document := Some {| doc_url := Some "/documents/1/a.pdf" |} |}
     = Some "/documents/1/a.pdf"
  /\ link {| link_external := "http://example.com/";
             link_page := None; link_document := None |}
     = Some "http://example.com/".
Proof.
  split; [|split].
  - apply (proj1 (link_priority _) {| lp_url := Some "/about/" |}).
    reflexivity.
  - apply (proj1 (proj2 (link_priority _))
             {| doc_url := Some "/documents/1/a.pdf" |}); reflexivity.
  - apply (proj2 (proj2 (link_priority
             {| link_external := "http://example.com/";
                link_page := None; link_document := None |})));
      reflexivity.
Defined.

(** C7: for hours 0 to 23 and minutes 0 to 59, [time_display] gives the
    hour on the 12-hour clock without a leading zero (0 and 12 both read
    12), then "." and the minutes unless they are zero, then "am" or "pm";
    and it gives the five sample strings of the specification. *)
Theorem time_display_12_hour :
  (forall t : time,
      0 <= hour t < 24 -> 0 <= minute t < 60 ->
      time_display t
      = str (hour12 (hour t))
        ++ (if minute t =? 0 then "" else "." ++ str (minute t))
        ++ (if hour t <? 12 then "am" else "pm")
      /\ 1 <= hour12 (hour t) <= 12
      /\ (hour12 (hour t) = 12 <-> hour t = 0 \/ hour t = 12)
      /\ first_char (time_display t) <> Some "0"%char)
  /\ time_display (mk_time 9 0) = "9am"
  /\ time_display (mk_time 13 5) = "1.5pm"
  /\ time_display (mk_time 0 0) = "12am"
  /\ time_display (mk_time 12 0) = "12pm"
  /\ time_display (mk_time 23 45) = "11.45pm".
Proof.
  split; [|repeat split; reflexivity].
  intros t Hh Hm.
  pose proof (hour12_range _ Hh) as Hr.
  split; [now apply time_display_as_spec|].
  split; [exact Hr|]. split; [now apply hour12_twelve|].
  rewrite time_display_as_spec by assumption. unfold time_display_spec.
  destruct (str_hour_first _ Hr) as (c & r & -> & Hc).
  simpl. congruence.
Qed.

Lemma time_display_12_hour_witness :
  time_display (mk_time 18 30) = "6.30pm"
  /\ first_char (time_display (mk_time 18 30)) <> Some "0"%char.
Proof.
  destruct (proj1 time_display_12_hour (mk_time 18 30)) as (H & _ & _ & H0).
  - simpl. lia.
  - simpl. lia.
  - split; [exact H | exact H0].
Defined.

(** * Further properties *)

(** ** Pagination of the four listings *)

Lemma settled_page_range (rows : list Page) (v : pyval) :
  1 <= settled_page rows v <= last_page rows.
Proof.
  pose proof (last_page_ge_1 rows). unfold settled_page.
  destruct (int v) as [n|]; [|lia].
  destruct (Z.ltb_spec n 1); simpl; [lia|].
  destruct (Z.gtb_spec n (last_page rows)); lia.
Qed.

Lemma last_page_value (rows : list Page) :
  last_page rows = (Z.max 1 (Z.of_nat (List.length rows)) + 9) / 10.
Proof.
  unfold last_page, paginator.num_pages, paginator.count; simpl.
  rewrite andb_false_r. f_equal; lia.
Qed.

Lemma last_page_covers (rows : list Page) (n : Z) :
  1 <= n <= last_page rows -> rows <> [] ->
  (Z.to_nat (10 * (n - 1)) < List.length rows)%nat.
Proof.
  rewrite last_page_value. intros [H1 Hn] Hne.
  assert (0 < List.length rows)%nat by (destruct rows; simpl; [congruence|lia]).
  pose proof (Z.mul_div_le (Z.max 1 (Z.of_nat (List.length rows)) + 9) 10
                ltac:(lia)).
  lia.
Qed.

Lemma last_page_reaches (rows : list Page) (i : nat) :
  (i < List.length rows)%nat -> Z.of_nat (i / 10) + 1 <= last_page rows.
Proof.
  intros Hi. rewrite last_page_value, Nat2Z.inj_div.
  change (Z.of_nat 10) with 10.
  replace (Z.of_nat i / 10 + 1) with ((Z.of_nat i + 1 * 10) / 10)
    by (rewrite Z.div_add by lia; reflexivity).
  apply Z.div_le_mono; lia.
Qed.

Lemma serve_of_response (k : IndexKind) (store : Store) (self : Page)
  (request : HttpRequest) (response : TemplateResponse) :
  serve_of k store self request = Return response ->
  response
  = render self (name_of k)
      (page_of (rows_of k store self request)
         (settled_page (rows_of k store self request)
            (get (GET request) "page"))).
Proof.
  intros H. pose proof (serve_of_settles k store self request) as Hs.
  unfold returns_page in Hs. congruence.
Qed.

Lemma settled_page_in_range (rows : list Page) (v : pyval) (n : Z) :
  int v = Some n -> 1 <= n <= last_page rows -> settled_page rows v = n.
Proof.
  intros Hn Hr. unfold settled_page. rewrite Hn.
  destruct (Z.ltb_spec n 1); [lia|].
  destruct (Z.gtb_spec n (last_page rows)); [lia|reflexivity].
Qed.

(** X1: for each of the four index listings, a [page] parameter that reads
    as an integer between 1 and the number of pages is answered with that
    very page. *)
Theorem page_in_range_is_served (k : IndexKind) (store : Store) (self : Page)
  (request : HttpRequest) (n : Z) :
  int (get (GET request) "page") = Some n ->
  1 <= n <= last_page (rows_of k store self request) ->
  returns_page k store self request n.
Proof.
  intros Hn Hr. pose proof (serve_of_settles k store self request) as Hs.
  now rewrite (settled_page_in_range _ _ n Hn Hr) in Hs.
Qed.

Lemma page_in_range_is_served_witness :
  returns_page JobIndex jobs_store jobs_index
    (request_with [("page", " 2 ")]) 2.
Proof.
  apply (page_in_range_is_served JobIndex jobs_store jobs_index
           (request_with [("page", " 2 ")]) 2).
  - reflexivity.
  - vm_compute. split; discriminate.
Defined.



(** X3: for each of the four index listings, a [page] parameter that reads
    as any integer below 1 is answered with the last page. *)
Theorem page_below_one_is_last (k : IndexKind) (store : Store) (self : Page)
  (request : HttpRequest) (n : Z) :
  int (get (GET request) "page") = Some n -> n < 1 ->
  returns_page k store self request
    (last_page (rows_of k store self request)).
Proof.
  intros Hn Hlt. pose proof (serve_of_settles k store self request) as Hs.
  unfold settled_page in Hs. rewrite Hn in Hs.
  destruct (Z.ltb_spec n 1); [exact Hs|lia].
Qed.

Lemma page_below_one_is_last_witness :
  returns_page JobIndex jobs_store jobs_index
    (request_with [("page", "-40")])
    (last_page (rows_of JobIndex jobs_store jobs_index
                  (request_with [("page", "-40")]))).
Proof.
  apply (page_below_one_is_last JobIndex jobs_store jobs_index
           (request_with [("page", "-40")]) (-40)).
  - reflexivity.
  - lia.
Defined.

(** X4: whatever the request, the page an index listing serves has a number
    between 1 and the number of pages and holds at most ten rows; it holds
    at least one row unless the listing is empty, in which case it is an
    empty page 1. *)
Theorem served_page_bounds (k : IndexKind) (store : Store) (self : Page)
  (request : HttpRequest) :
  exists response,
    serve_of k store self request = Return response
    /\ 1 <= paginator.number (listing response)
         <= last_page (rows_of k store self request)
    /\ (List.length (paginator.page_object_list (listing response)) <= 10)%nat
    /\ (rows_of k store self request <> [] ->
        paginator.page_object_list (listing response) <> [])
    /\ (rows_of k store self request = [] ->
        paginator.number (listing response) = 1
        /\ paginator.page_object_list (listing response) = []).
Proof.
  pose proof (serve_of_settles k store self request) as Hs.
  pose proof (settled_page_range (rows_of k store self request)
                (get (GET request) "page")) as Hr.
  eexists. split; [exact Hs|].
  cbn [listing render page_of paginator.number paginator.page_object_list].
  split; [exact Hr|]. split; [apply firstn_le_length|]. split.
  - intros Hne Hnil.
    pose proof (last_page_covers _ _ Hr Hne) as Hlt.
    apply (f_equal (@List.length Page)) in Hnil.
    rewrite length_firstn, length_skipn in Hnil.
    change (List.length (@nil Page)) with 0%nat in Hnil. lia.
  - intros Hnil. rewrite Hnil in *. split.
    + change (last_page []) with 1 in Hr. lia.
    + now rewrite skipn_nil, firstn_nil.
Qed.

(** X5: no row of a listing is out of reach: the row at position [i] of the
    rows is served at position [i mod 10] of page [i / 10 + 1]. *)
Theorem every_row_is_served (k : IndexKind) (store : Store) (self : Page)
  (request : HttpRequest) (i : nat) (r : Page) :
  nth_error (rows_of k store self request) i = Some r ->
  int (get (GET request) "page") = Some (Z.of_nat (i / 10) + 1) ->
  exists response,
    serve_of k store self request = Return response
    /\ paginator.number (listing response) = Z.of_nat (i / 10) + 1
    /\ nth_error (paginator.page_object_list (listing response)) (i mod 10)
       = Some r.
Proof.
  intros Hr Hn.
  assert (Hi : (i < List.length (rows_of k store self request))%nat).
  { apply nth_error_Some. congruence. }
  pose proof (last_page_reaches _ _ Hi) as Hle.
  pose proof (serve_of_settles k store self request) as Hs.
  rewrite (settled_page_in_range _ _ _ Hn) in Hs by lia.
  eexists. split; [exact Hs|].
  cbn [listing render page_of paginator.number paginator.page_object_list].
  split; [reflexivity|].
  pose proof (Nat.mod_upper_bound i 10 ltac:(lia)).
  rewrite nth_error_firstn.
  destruct (Nat.ltb_spec (i mod 10) 10); [|lia].
  rewrite nth_error_skipn, <- Hr. f_equal.
  pose proof (Nat.div_mod_eq i 10). lia.
Qed.

Lemma every_row_is_served_witness :
  exists response,
    serve_of JobIndex jobs_store jobs_index
      (request_with [("page", "2")]) = Return response
    /\ paginator.number (listing response) = Z.of_nat (10 / 10) + 1
    /\ nth_error (paginator.page_object_list (listing response)) (10 mod 10)
       = Some (sample_row 13 "00010001000B" jobpage).
Proof.
  apply (every_row_is_served JobIndex jobs_store jobs_index
           (request_with [("page", "2")]) 10); reflexivity.
Defined.

(** ** What the listings hold *)

Lemma rows_of_In (k : IndexKind) (store : Store) (self : Page)
  (request : HttpRequest) (p : Page) :
  In p (rows_of k store self request) ->
  In p store /\ class_of k (specific p) = true /\ live p = true
  /\ path_startswith (path self) p = true.
Proof.
  destruct k; cbn [rows_of class_of].
  - intros H.
    assert (Hb : In p (BlogIndexPage.blogs store self)).
    { destruct (truthy (get (GET request) "tag")); [|exact H].
      now apply filter_In in H. }
    now apply blogs_In.
  - unfold JobIndexPage.jobs, objects.
    rewrite !filter_In, andb_true_iff. tauto.
  - unfold WorkIndexPage.work, objects.
    rewrite !filter_In, andb_true_iff. tauto.
  - unfold PersonIndexPage.people, objects.
    rewrite !filter_In, andb_true_iff. tauto.
Qed.

Lemma class_differs (k : IndexKind) (p self : Page) :
  class_of k (specific p) = true -> class_of k (specific self) = false ->
  p <> self.
Proof. intros Hp Hs ->. congruence. Qed.

(** X6: every row on a page that an index listing serves is a published
    page of the listing's class whose path starts with the path of the
    index; on a well-formed page table that holds the index, the index not
    being of that class itself, the row is a descendant of the index. *)
Theorem served_rows_are_published (k : IndexKind) (store : Store)
  (self : Page) (request : HttpRequest) (response : TemplateResponse)
  (p : Page) :
  serve_of k store self request = Return response ->
  In p (paginator.page_object_list (listing response)) ->
  In p store /\ class_of k (specific p) = true /\ live p = true
  /\ path_startswith (path self) p = true
  /\ (well_formed store = true -> In self store ->
      class_of k (specific self) = false ->
      is_descendant_of p self = true).
Proof.
  intros Hs Hp. apply serve_of_response in Hs. subst response.
  cbn [listing render page_of paginator.page_object_list] in Hp.
  apply In_firstn_skipn, rows_of_In in Hp.
  destruct Hp as (Hin & Hc & Hl & Hpre). repeat split; trivial.
  intros Hw Hself Hcs.
  apply (startswith_descendant store); trivial.
  now apply (class_differs k).
Qed.

Lemma served_rows_are_published_witness :
  In post_b blog_store /\ class_of BlogIndex (specific post_b) = true
  /\ live post_b = true /\ path_startswith (path blog_idx) post_b = true
  /\ (well_formed blog_store = true -> In blog_idx blog_store ->
      class_of BlogIndex (specific blog_idx) = false ->
      is_descendant_of post_b blog_idx = true).
Proof.
  apply (served_rows_are_published BlogIndex blog_store blog_idx
           (request_with [("tag", "wagtail")])
           (render blog_idx "blogs"
              (page_of (rows_of BlogIndex blog_store blog_idx
                          (request_with [("tag", "wagtail")])) 1))).
  - reflexivity.
  - simpl. tauto.
Defined.

(** X7: on a well-formed page table, the job, work and person listings
    paginate exactly the published pages of their class that are
    descendants of the index page. *)
Theorem plain_listing_rows (k : IndexKind) (store : Store) (self : Page)
  (request : HttpRequest) (p : Page) :
  k <> BlogIndex ->
  well_formed store = true -> In self store ->
  class_of k (specific self) = false ->
  In p (rows_of k store self request)
  <-> In p store /\ class_of k (specific p) = true /\ live p = true
      /\ is_descendant_of p self = true.
Proof.
  intros Hk Hw Hself Hcs. split.
  - intros H. apply rows_of_In in H.
    destruct H as (Hin & Hc & Hl & Hpre). repeat split; trivial.
    apply (startswith_descendant store); trivial.
    now apply (class_differs k).
  - intros (Hin & Hc & Hl & Hd).
    unfold is_descendant_of in Hd. apply andb_true_iff in Hd.
    destruct Hd as [Hpre _].
    destruct k; [congruence| | |]; cbn [rows_of class_of] in *.
    + unfold JobIndexPage.jobs, objects.
      rewrite !filter_In, andb_true_iff. tauto.
    + unfold WorkIndexPage.work, objects.
      rewrite !filter_In, andb_true_iff. tauto.
    + unfold PersonIndexPage.people, objects.
      rewrite !filter_In, andb_true_iff. tauto.
Qed.

Lemma plain_listing_rows_witness :
  In (sample_row 5 "000100010003" jobpage)
     (rows_of JobIndex jobs_store jobs_index (request_with []))
  <-> In (sample_row 5 "000100010003" jobpage) jobs_store
      /\ class_of JobIndex (specific (sample_row 5 "000100010003" jobpage))
         = true
      /\ live (sample_row 5 "000100010003" jobpage) = true
      /\ is_descendant_of (sample_row 5 "000100010003" jobpage) jobs_index
         = true.
Proof.
  apply (plain_listing_rows JobIndex jobs_store jobs_index (request_with [])).
  - discriminate.
  - reflexivity.
  - simpl. tauto.
  - reflexivity.
Defined.

Lemma StronglySorted_skipn {A : Type} (R : A -> A -> Prop) (n : nat)
  (l : list A) : StronglySorted R l -> StronglySorted R (skipn n l).
Proof.
  revert l. induction n as [|n IH]; intros l Hs; [exact Hs|].
  destruct l as [|x l]; [exact Hs|]. simpl. apply IH. now inversion Hs.
Qed.

Lemma StronglySorted_firstn {A : Type} (R : A -> A -> Prop) (n : nat)
  (l : list A) : StronglySorted R l -> StronglySorted R (firstn n l).
Proof.
  revert l. induction n as [|n IH]; intros l Hs; [constructor|].
  destruct l as [|x l]; [constructor|]. simpl.
  inversion Hs as [|? ? Hs' Hx]; subst. constructor; [now apply IH|].
  rewrite Forall_forall in *. intros y Hy. apply Hx.
  rewrite <- (firstn_skipn n l). apply in_or_app. now left.
Qed.

(** X8: the page of blogs that the blog index serves is in descending order
    of post date, with or without a tag. *)
Theorem served_blogs_newest_first (store : Store) (self : Page)
  (request : HttpRequest) (response : TemplateResponse) :
  BlogIndexPage.serve store self request = Return response ->
  StronglySorted (fun a b => BlogPage.date a >= BlogPage.date b)
    (paginator.page_object_list (listing response)).
Proof.
  intros Hs. apply (serve_of_response BlogIndex) in Hs. subst response.
  cbn [listing render page_of paginator.page_object_list rows_of].
  apply StronglySorted_firstn, StronglySorted_skipn.
  destruct (truthy (get (GET request) "tag"));
    [apply StronglySorted_filter|]; apply blogs_sorted.
Qed.

Lemma served_blogs_newest_first_witness :
  StronglySorted (fun a b => BlogPage.date a >= BlogPage.date b)
    [post_b; post_a].
Proof.
  apply (served_blogs_newest_first blog_store blog_idx
           (request_with [("tag", "wagtail")])
           (render blog_idx "blogs"
              (page_of (rows_of BlogIndex blog_store blog_idx
                          (request_with [("tag", "wagtail")])) 1))).
  reflexivity.
Defined.

Lemma filter_none {A : Type} (f : A -> bool) (l : list A) :
  existsb f l = false -> filter f l = [].
Proof.
  induction l as [|x l IH]; simpl; [reflexivity|].
  destruct (f x); [discriminate | exact IH].
Qed.

(** X9: a non-empty tag that no listed blog carries is answered with an
    empty page 1, whatever the [page] parameter is. *)
Theorem unknown_tag_empty_page (store : Store) (self : Page)
  (request : HttpRequest) (X : string) :
  get (GET request) "tag" = PyStr X -> X <> "" ->
  existsb (BlogPage.tags__name (PyStr X)) (BlogIndexPage.blogs store self)
  = false ->
  exists response,
    BlogIndexPage.serve store self request = Return response
    /\ paginator.number (listing response) = 1
    /\ paginator.page_object_list (listing response) = []
    /\ paginator.object_list (paginator.of_paginator (listing response)) = [].
Proof.
  intros Htag HX Hnone.
  pose proof (serve_of_settles BlogIndex store self request) as Hs.
  unfold returns_page in Hs. cbn [serve_of name_of] in Hs.
  assert (Hrows : rows_of BlogIndex store self request = []).
  { unfold rows_of. rewrite Htag. cbn [truthy].
    apply String.eqb_neq in HX. rewrite HX. cbn [negb].
    now apply filter_none. }
  rewrite Hrows in Hs.
  pose proof (settled_page_range [] (get (GET request) "page")) as Hr.
  change (last_page []) with 1 in Hr.
  replace (settled_page [] (get (GET request) "page")) with 1 in Hs by lia.
  eexists. split; [exact Hs|]. repeat split.
Qed.

Lemma unknown_tag_empty_page_witness :
  exists response,
    BlogIndexPage.serve blog_store blog_idx
      (request_with [("tag", "python"); ("page", "3")]) = Return response
    /\ paginator.number (listing response) = 1
    /\ paginator.page_object_list (listing response) = []
    /\ paginator.object_list (paginator.of_paginator (listing response)) = [].
Proof.
  apply (unknown_tag_empty_page blog_store blog_idx
           (request_with [("tag", "python"); ("page", "3")]) "python").
  - reflexivity.
  - discriminate.
  - reflexivity.
Defined.

(** ** The blog index of a blog page, further *)

Lemma blog_index_from_ancestors (store : Store) (self r : Page) :
  find (fun a => is_BlogIndexPage (specific a))
       (rev (get_ancestors store self)) = Some r ->
  BlogPage.blog_index store self = Some r
  /\ In r (get_ancestors store self)
  /\ is_BlogIndexPage (specific r) = true
  /\ (forall b, In b (get_ancestors store self) ->
                is_BlogIndexPage (specific b) = true -> depth b <= depth r).
Proof.
  intros Hr.
  destruct (find_split _ _ _ Hr) as (l1 & l2 & Hrev & Hidx & Hl1).
  assert (Hanc : get_ancestors store self = (rev l2 ++ r :: rev l1)%list).
  { rewrite <- (rev_involutive (get_ancestors store self)), Hrev.
    rewrite rev_app_distr. simpl. now rewrite <- app_assoc. }
  pose proof (get_ancestors_sorted store self) as Hs. rewrite Hanc in Hs.
  split; [unfold BlogPage.blog_index; now rewrite Hr|].
  split; [rewrite Hanc; apply in_elt|]. split; [exact Hidx|].
  intros b Hb Hbi. rewrite Hanc in Hb.
  apply in_app_or in Hb. destruct Hb as [Hb|[<-|Hb]].
  - now apply (StronglySorted_before _ _ _ _ Hs).
  - lia.
  - apply in_rev in Hb. rewrite Forall_forall in Hl1.
    specialize (Hl1 b Hb). simpl in Hl1. congruence.
Qed.

Lemma first_In {A : Type} (l : list A) (x : A) : first l = Some x -> In x l.
Proof. destruct l; simpl; [discriminate|]. intros [= <-]. now left. Qed.

(** X10: whatever page [blog_index] returns is a blog index page of the page
    table; when no ancestor of the entry is a blog index, the page returned
    is not an ancestor of the entry. *)
Theorem blog_index_is_a_blog_index (store : Store) (self r : Page) :
  BlogPage.blog_index store self = Some r ->
  is_BlogIndexPage (specific r) = true
  /\ In r store
  /\ (existsb (fun a => is_BlogIndexPage (specific a))
              (get_ancestors store self) = false ->
      ~ In r (get_ancestors store self)).
Proof.
  intros H.
  assert (Hr : is_BlogIndexPage (specific r) = true /\ In r store).
  { unfold BlogPage.blog_index in H.
    destruct (find _ (rev (get_ancestors store self))) as [a|] eqn:E.
    - injection H as ->. apply find_some in E. destruct E as [Hin Hbi].
      split; [exact Hbi|].
      apply in_rev, get_ancestors_In in Hin. tauto.
    - apply first_In in H. unfold objects in H. apply filter_In in H.
      tauto. }
  destruct Hr as [Hbi Hin]. repeat split; trivial.
  intros Hnone Hanc.
  assert (existsb (fun a => is_BlogIndexPage (specific a))
            (get_ancestors store self) = true).
  { apply existsb_exists. now exists r. }
  congruence.
Qed.

Lemma blog_index_is_a_blog_index_witness :
  is_BlogIndexPage (specific blog_idx) = true
  /\ In blog_idx blog_store
  /\ (existsb (fun a => is_BlogIndexPage (specific a))
              (get_ancestors blog_store post_stray) = false ->
      ~ In blog_idx (get_ancestors blog_store post_stray)).
Proof.
  apply (blog_index_is_a_blog_index blog_store post_stray blog_idx).
  reflexivity.
Defined.

(** X11: [blog_index] returns [None] exactly when the page table holds no
    blog index page. *)
Theorem blog_index_none_iff (store : Store) (self : Page) :
  BlogPage.blog_index store self = None
  <-> objects is_BlogIndexPage store = [].
Proof.
  split.
  - unfold BlogPage.blog_index.
    destruct (find _ (rev (get_ancestors store self))); [discriminate|].
    destruct (objects is_BlogIndexPage store); [reflexivity|discriminate].
  - intros Hnone. rewrite blog_index_fallback; [now rewrite Hnone|].
    destruct (existsb _ (get_ancestors store self)) eqn:E; [|reflexivity].
    apply existsb_exists in E. destruct E as (a & Ha & Hbi).
    apply get_ancestors_In in Ha.
    assert (Hin : In a (objects is_BlogIndexPage store)).
    { unfold objects. apply filter_In. tauto. }
    rewrite Hnone in Hin. contradiction.
Qed.

Lemma index_is_ancestor (store : Store) (idx p : Page) :
  well_formed store = true -> In idx store -> In p store -> p <> idx ->
  path idx <> "" -> path_startswith (path idx) p = true ->
  In idx (get_ancestors store p).
Proof.
  intros Hw Hidx Hp Hne Hpath Hpre.
  apply get_ancestors_In. split; [exact Hidx|].
  apply ancestor_paths_spec.
  assert (Hd : is_descendant_of p idx = true)
    by now apply (startswith_descendant store).
  unfold well_formed in Hw. apply andb_true_iff in Hw. destruct Hw as [Hw _].
  pose proof (whole_steps_In store idx Hw Hidx) as Mi.
  pose proof (whole_steps_In store p Hw Hp) as Mp.
  pose proof (prefix_length _ _ Hpre) as Hle.
  unfold is_descendant_of in Hd. apply andb_true_iff in Hd.
  destruct Hd as [_ Hd]. apply Z.ltb_lt in Hd. unfold depth in Hd.
  assert (Hlen : String.length (path idx) <> 0%nat).
  { destruct (path idx); simpl; [congruence|lia]. }
  unfold steplen in *.
  pose proof (Nat.div_mod_eq (String.length (path idx)) 4) as Ei.
  pose proof (Nat.div_mod_eq (String.length (path p)) 4) as Ep.
  exists (String.length (path idx) / 4)%nat.
  split; [lia|]. split; [lia|].
  replace (String.length (path idx) / 4 * 4)%nat
    with (String.length (path idx)) by lia.
  symmetry. now apply String.prefix_correct.
Qed.

(** X12: on a well-formed page table, a post that a blog index lists never
    falls back: its [blog_index] is a blog index among its ancestors, the
    listing index itself or one nested below it. *)
Theorem listed_post_resolves (store : Store) (idx p : Page) :
  well_formed store = true -> In idx store ->
  is_BlogIndexPage (specific idx) = true -> path idx <> "" ->
  In p (BlogIndexPage.blogs store idx) ->
  exists r,
    BlogPage.blog_index store p = Some r
    /\ is_BlogIndexPage (specific r) = true
    /\ In r (get_ancestors store p)
    /\ depth idx <= depth r.
Proof.
  intros Hw Hidx Hbi Hpath Hp. apply blogs_In in Hp.
  destruct Hp as (Hin & Hb & _ & Hpre).
  assert (Hne : p <> idx).
  { intros ->. destruct (specific idx); discriminate. }
  pose proof (index_is_ancestor store idx p Hw Hidx Hin Hne Hpath Hpre)
    as Hanc.
  assert (Hex : existsb (fun a => is_BlogIndexPage (specific a))
                  (rev (get_ancestors store p)) = true).
  { apply existsb_exists. exists idx. split; [now apply in_rev in Hanc|].
    exact Hbi. }
  destruct (find_existsb _ _ Hex) as [r Hr].
  destruct (blog_index_from_ancestors store p r Hr) as (H1 & H2 & H3 & H4).
  exists r. repeat split; trivial. now apply H4.
Qed.

Lemma listed_post_resolves_witness :
  exists r,
    BlogPage.blog_index blog_store post_a = Some r
    /\ is_BlogIndexPage (specific r) = true
    /\ In r (get_ancestors blog_store post_a)
    /\ depth blog_idx <= depth r.
Proof.
  apply (listed_post_resolves blog_store blog_idx post_a).
  - reflexivity.
  - simpl. tauto.
  - reflexivity.
  - discriminate.
  - vm_compute. auto.
Defined.

(** ** The menus *)

Lemma get_siblings_In (store : Store) (self p : Page) :
  In p (get_siblings store self) <->
  In p store /\ is_sibling_of p self = true.
Proof.
  unfold get_siblings, is_sibling_of.
  destruct (depth self >? 1).
  - rewrite filter_In, order_by_In, filter_In, andb_true_iff. tauto.
  - rewrite order_by_In, filter_In, andb_true_r. tauto.
Qed.

Lemma secondary_menu_In (store : Store) (calling p : Page) :
  In p (secondary_menu store (Some calling)) <->
  In p store /\ in_menus p = true
  /\ (if has_menu_children store calling
      then is_child_of p calling = true
      else is_sibling_of p calling = true /\ pk p <> pk calling).
Proof.
  unfold secondary_menu, has_menu_children, in_menus.
  destruct (filter _ (get_children store calling)) as [|c l] eqn:E.
  - cbn [List.length nonempty Z.of_nat Z.eqb].
    unfold get_other_siblings.
    rewrite !filter_In, get_siblings_In, negb_true_iff, Z.eqb_neq. tauto.
  - replace (Z.of_nat (List.length (c :: l)) =? 0) with false
      by (symmetry; apply Z.eqb_neq; simpl; lia).
    cbn [nonempty]. rewrite <- E, filter_In, get_children_In. tauto.
Qed.

(** X13: without a calling page the secondary menu is empty; with one, it
    lists the published, nav-visible children of the calling page when
    [has_menu_children] holds of it, and otherwise the published,
    nav-visible pages at its level under the same parent, the calling page
    left out. *)
Theorem secondary_menu_children_or_siblings (store : Store) :
  secondary_menu store None = []
  /\ forall calling p,
       In p (secondary_menu store (Some calling)) <->
       In p store /\ in_menus p = true
       /\ (if has_menu_children store calling
           then is_child_of p calling = true
           else is_sibling_of p calling = true /\ pk p <> pk calling).
Proof. split; [reflexivity | apply secondary_menu_In]. Qed.

(** X14: the secondary menu never lists the calling page itself, and every
    page it lists is a published, nav-visible page of the page table. *)
Theorem secondary_menu_excludes_caller (store : Store) (calling p : Page) :
  In p (secondary_menu store (Some calling)) ->
  p <> calling /\ In p store /\ live p = true /\ show_in_menus p = true.
Proof.
  intros H. apply secondary_menu_In in H. destruct H as (Hin & Hm & Hc).
  unfold in_menus in Hm. apply andb_true_iff in Hm.
  split; [|tauto].
  intros ->. destruct (has_menu_children store calling).
  - unfold is_child_of in Hc. apply andb_true_iff in Hc.
    destruct Hc as [_ Hc]. apply Z.eqb_eq in Hc. lia.
  - destruct Hc as [_ Hc]. now apply Hc.
Qed.

Lemma secondary_menu_excludes_caller_witness :
  post_b <> post_a /\ In post_b blog_store /\ live post_b = true
  /\ show_in_menus post_b = true.
Proof.
  apply (secondary_menu_excludes_caller blog_store post_a post_b).
  vm_compute. auto.
Defined.

(** X15: the three menu tags agree: the top menu of a page shows the rows
    that [top_menu_children] gives for it, the dropdown flag of an item
    tells whether [top_menu_children] of that item has a row, and when a
    page has such children its secondary menu is that same list. *)
Theorem menus_agree (store : Store) (parent : Page) (calling : option Page) :
  map row (menuitems (top_menu store parent calling))
  = top_menu_children store parent
  /\ Forall (fun m => show_dropdown m
                      = Some (nonempty (top_menu_children store (row m))))
            (menuitems (top_menu store parent calling))
  /\ (top_menu_children store parent <> [] ->
      secondary_menu store (Some parent) = top_menu_children store parent).
Proof.
  unfold top_menu_children. split; [|split].
  - unfold top_menu; cbn [menuitems]. rewrite !map_map. apply map_id.
  - unfold top_menu; cbn [menuitems]. rewrite map_map, Forall_map.
    rewrite Forall_forall. intros c _. cbn [row show_dropdown].
    unfold has_menu_children. now destruct (nonempty _).
  - intros Hne. unfold secondary_menu.
    destruct (filter _ (get_children store parent)) as [|c l];
      [congruence|].
    replace (Z.of_nat (List.length (c :: l)) =? 0) with false
      by (symmetry; apply Z.eqb_neq; simpl; lia).
    reflexivity.
Qed.

(** ** The home page feeds *)

Lemma StronglySorted_across {A : Type} (R : A -> A -> Prop)
  (l1 l2 : list A) :
  StronglySorted R (l1 ++ l2)%list ->
  forall a b, In a l1 -> In b l2 -> R a b.
Proof.
  induction l1 as [|x l1 IH]; simpl; intros Hs a b Ha Hb; [contradiction|].
  inversion Hs as [|? ? Hs' Hx]; subst. destruct Ha as [<-|Ha].
  - rewrite Forall_forall in Hx. apply Hx, in_or_app. now right.
  - now apply IH.
Qed.

Lemma live_blogs_sorted (store : Store) :
  StronglySorted (fun a b => BlogPage.date a >= BlogPage.date b)
    (order_by (fun a b => BlogPage.date b <=? BlogPage.date a)
       (filter (fun p => live p) (objects is_BlogPage store))).
Proof.
  eapply StronglySorted_impl; [|apply order_by_sorted].
  - intros a b H. apply Z.leb_le in H. lia.
  - intros a b H. apply Z.leb_gt in H. apply Z.leb_le. lia.
  - intros a b c H1 H2. apply Z.leb_le in H1, H2. apply Z.leb_le. lia.
Qed.

(** X16: for a count that is not negative, the home page blog feed holds at
    most that many posts, all of them published blog pages, newest first,
    and no published blog page that it leaves out is newer than one that it
    shows; it holds all of them when there are no more than the count. *)
Theorem homepage_blogs_newest (store : Store) (count : Z) :
  0 <= count ->
  exists blogs,
    homepage_blog_listing store count = Some blogs
    /\ List.length blogs
       = Nat.min (Z.to_nat count)
           (List.length (filter (fun p => live p)
                           (objects is_BlogPage store)))
    /\ Forall (fun p => In p store /\ is_BlogPage (specific p) = true
                        /\ live p = true) blogs
    /\ StronglySorted (fun a b => BlogPage.date a >= BlogPage.date b) blogs
    /\ (forall q, In q store -> is_BlogPage (specific q) = true ->
                  live q = true -> ~ In q blogs ->
                  Forall (fun p => BlogPage.date p >= BlogPage.date q) blogs).
Proof.
  intros Hc. unfold homepage_blog_listing, up_to.
  destruct (Z.ltb_spec count 0); [lia|].
  set (sorted := order_by _ _).
  assert (HIn : forall p, In p sorted <->
                          In p store /\ is_BlogPage (specific p) = true
                          /\ live p = true).
  { intros p. unfold sorted, objects. rewrite order_by_In, !filter_In.
    tauto. }
  exists (firstn (Z.to_nat count) sorted). split; [reflexivity|].
  split; [|split; [|split]].
  - rewrite length_firstn. f_equal. unfold sorted.
    apply Permutation_length, order_by_perm.
  - rewrite Forall_forall. intros p Hp. apply HIn.
    rewrite <- (firstn_skipn (Z.to_nat count) sorted).
    apply in_or_app. now left.
  - apply StronglySorted_firstn, live_blogs_sorted.
  - intros q Hq Hb Hl Hnot. rewrite Forall_forall. intros p Hp.
    assert (Hqs : In q sorted) by (apply HIn; tauto).
    rewrite <- (firstn_skipn (Z.to_nat count) sorted) in Hqs.
    apply in_app_or in Hqs. destruct Hqs as [Hqs|Hqs]; [contradiction|].
    pose proof (live_blogs_sorted store) as Hs. fold sorted in Hs.
    rewrite <- (firstn_skipn (Z.to_nat count) sorted) in Hs.
    now apply (StronglySorted_across _ _ _ Hs).
Qed.

Lemma homepage_blogs_newest_witness :
  exists blogs,
    homepage_blog_listing blog_store 2 = Some blogs
    /\ List.length blogs
       = Nat.min (Z.to_nat 2)
           (List.length (filter (fun p => live p)
                           (objects is_BlogPage blog_store)))
    /\ Forall (fun p => In p blog_store /\ is_BlogPage (specific p) = true
                        /\ live p = true) blogs
    /\ StronglySorted (fun a b => BlogPage.date a >= BlogPage.date b) blogs
    /\ (forall q, In q blog_store -> is_BlogPage (specific q) = true ->
                  live q = true -> ~ In q blogs ->
                  Forall (fun p => BlogPage.date p >= BlogPage.date q) blogs).
Proof. apply (homepage_blogs_newest blog_store 2). lia. Defined.

(** X17: for a count that is not negative, the home page job feed is the
    first rows, up to the count, of the published job pages in the order of
    the page table; it holds every published job page when there are no
    more than the count. *)
Theorem homepage_jobs_first (store : Store) (count : Z) :
  0 <= count ->
  exists jobs rest,
    homepage_job_listing store count = Some jobs
    /\ (jobs ++ rest)%list = filter (fun p => is_JobPage (specific p) && live p)
                               store
    /\ (List.length jobs <= Z.to_nat count)%nat
    /\ (rest <> [] -> List.length jobs = Z.to_nat count).
Proof.
  intros Hc. unfold homepage_job_listing, up_to, objects.
  destruct (Z.ltb_spec count 0); [lia|].
  set (rows := filter (fun p => live p) _).
  exists (firstn (Z.to_nat count) rows), (skipn (Z.to_nat count) rows).
  split; [reflexivity|]. split; [|split].
  - rewrite firstn_skipn. unfold rows.
    induction store as [|x store IH]; simpl; [reflexivity|].
    destruct (is_JobPage (specific x)); simpl; [|exact IH].
    destruct (live x); [now f_equal | exact IH].
  - apply firstn_le_length.
  - intros Hrest. rewrite length_firstn.
    destruct (Nat.le_gt_cases (List.length rows) (Z.to_nat count)) as [Hle|Hgt];
      [|lia].
    exfalso. apply Hrest. now apply skipn_all2.
Qed.

Lemma homepage_jobs_first_witness :
  exists jobs rest,
    homepage_job_listing jobs_store 3 = Some jobs
    /\ (jobs ++ rest)%list
       = filter (fun p => is_JobPage (specific p) && live p) jobs_store
    /\ (List.length jobs <= Z.to_nat 3)%nat
    /\ (rest <> [] -> List.length jobs = Z.to_nat 3).
Proof. apply (homepage_jobs_first jobs_store 3). lia. Defined.

(** ** The time formatter, further *)

Lemma distinct_keys_inj {A : Type} (key : A -> string) (l : list A)
  (a b : A) :
  distinct_keys key l = true -> In a l -> In b l -> key a = key b -> a = b.
Proof.
  induction l as [|x l IH]; simpl; [contradiction|].
  rewrite andb_true_iff, negb_true_iff. intros [Hx Hd] Ha Hb Hab.
  assert (Hnot : forall y, In y l -> key y <> key x).
  { intros y Hy Hyx.
    assert (E : existsb (fun z => (key z =? key x)%string) l = true).
    { apply existsb_exists. exists y. split; [exact Hy|].
      now apply String.eqb_eq. }
    congruence. }
  destruct Ha as [<-|Ha], Hb as [<-|Hb].
  - reflexivity.
  - exfalso. now apply (Hnot b Hb).
  - exfalso. now apply (Hnot a Ha).
  - now apply IH.
Qed.

Lemma all_times_In (t : time) :
  0 <= hour t < 24 -> 0 <= minute t < 60 -> In t all_times.
Proof.
  destruct t as [h m]; cbn [hour minute]. intros Hh Hm.
  unfold all_times. apply in_flat_map. exists (Z.to_nat h).
  split; [apply in_seq; lia|].
  apply in_map_iff. exists (Z.to_nat m).
  split; [|apply in_seq; lia].
  now rewrite !Z2Nat.id by lia.
Qed.

Lemma all_times_distinct : distinct_keys time_display all_times = true.
Proof. vm_compute. reflexivity. Qed.

(** X18: two different times of day never display alike: for hours 0 to 23
    and minutes 0 to 59, the string [time_display] returns determines the
    time. *)
Theorem time_display_injective (t1 t2 : time) :
  0 <= hour t1 < 24 -> 0 <= minute t1 < 60 ->
  0 <= hour t2 < 24 -> 0 <= minute t2 < 60 ->
  time_display t1 = time_display t2 -> t1 = t2.
Proof.
  intros H1 M1 H2 M2.
  apply (distinct_keys_inj time_display all_times);
    [apply all_times_distinct | now apply all_times_In ..].
Qed.

Lemma time_display_injective_witness :
  time_display (mk_time 1 10) = "1.10am"
  /\ mk_time 1 10 = mk_time 1 10.
Proof.
  split; [reflexivity|].
  apply (time_display_injective (mk_time 1 10) (mk_time 1 10));
    [simpl; lia .. | reflexivity].
Defined.
